(** * local-lead-finder: the search aggregator and the CSV exporter of [app.py]

    A shallow embedding of the two request handlers of [app.py]
    ([api_search] and [api_export_csv]) together with the helpers they call
    ([google_text_search_once], [google_place_details]), followed by the
    properties of the specification proved, or refuted, on them.

    Conventions of the embedding.
    - A Python object that came out of a JSON parser is a value of [json].
    - A Python [str] is a [string] that holds the UTF-8 code units of its
      characters, one [ascii] per unit.  A lone surrogate, which a [str]
      may hold and UTF-8 excludes, is held by the three units with the
      same bit layout (ED, A0 to BF, 80 to BF).
    - A Python [float] is carried by its [repr] text, which identifies it.
    - A Python [dict] is an association list in insertion order whose keys
      are distinct; [dict.get] returns the first binding of the key.
    - A raised exception is the left injection of a sum; an outbound HTTP
      call is an event appended to a log, answered by the environment. *)

From Stdlib Require Import List String Ascii ZArith Bool DecimalString.
From Stdlib.Strings Require Import Byte.
Import ListNotations.
Open Scope list_scope.
Open Scope string_scope.

(* ================================================================== *)
(** ** Python values *)

Module Py.

Local Set Warnings "-register-all".

(** The objects [json.loads] produces. *)
Inductive json : Type :=
| JNull
| JBool (b : bool)
| JInt (z : Z)
| JFloat (repr : string)
| JStr (s : string)
| JArr (items : list json)
| JObj (fields : list (string * json)).

(** Exception classes that the handlers can meet, and how they are
    related to [requests.HTTPError] and to [Exception]. *)
Inductive exn_class :=
| HTTPError
| Timeout
| ConnectionError
| TooManyRedirects
| JSONDecodeError
| AttributeError
| TypeError
| UnicodeEncodeError.

Record exn := Exn { exn_cls : exn_class; exn_msg : string }.

(** [isinstance(e, requests.HTTPError)] *)
Definition is_HTTPError (e : exn) : bool :=
  match exn_cls e with HTTPError => true | _ => false end.

(** [str(e)] *)
Definition str_exn (e : exn) : string := exn_msg e.

Definition result (A : Type) : Type := (exn + A)%type.

Definition ok {A} (a : A) : result A := inr a.
Definition raise {A} (e : exn) : result A := inl e.

Definition rbind {A B} (m : result A) (k : A -> result B) : result B :=
  match m with
  | inl e => inl e
  | inr a => k a
  end.

(** The name of the type of a value, as it appears in error messages. *)
Definition type_name (v : json) : string :=
  match v with
  | JNull => "NoneType"
  | JBool _ => "bool"
  | JInt _ => "int"
  | JFloat _ => "float"
  | JStr _ => "str"
  | JArr _ => "list"
  | JObj _ => "dict"
  end.

Definition no_attribute (v : json) (attr : string) : exn :=
  Exn AttributeError
      ("'" ++ type_name v ++ "' object has no attribute '" ++ attr ++ "'").

Definition not_iterable (v : json) : exn :=
  Exn TypeError ("'" ++ type_name v ++ "' object is not iterable").

(** The two spellings of a zero float. *)
Definition float_is_zero (repr : string) : bool :=
  String.eqb repr "0.0" || String.eqb repr "-0.0".

(** [bool(v)] *)
Definition truthy (v : json) : bool :=
  match v with
  | JNull => false
  | JBool b => b
  | JInt z => negb (Z.eqb z 0)
  | JFloat r => negb (float_is_zero r)
  | JStr s => negb (String.eqb s "")
  | JArr l => match l with [] => false | _ => true end
  | JObj l => match l with [] => false | _ => true end
  end.

(** [a or b] *)
Definition por (a b : json) : json := if truthy a then a else b.

Fixpoint assoc (k : string) (l : list (string * json)) : option json :=
  match l with
  | [] => None
  | (k', v) :: l' => if String.eqb k k' then Some v else assoc k l'
  end.

(** [o.get(k, default)]: only a dict has the method. *)
Definition get (o : json) (k : string) (default : json) : result json :=
  match o with
  | JObj fields =>
      ok (match assoc k fields with Some v => v | None => default end)
  | _ => raise (no_attribute o "get")
  end.

(** [isinstance(v, list)] *)
Definition is_list (v : json) : bool :=
  match v with JArr _ => true | _ => false end.

Definition is_dict (v : json) : bool :=
  match v with JObj _ => true | _ => false end.

(** *** Characters *)

(** A code unit that continues a character. *)
Definition is_continuation (c : ascii) : bool :=
  let n := N_of_ascii c in ((128 <=? n) && (n <? 192))%N.

Definition starts_with_continuation (s : string) : bool :=
  match s with
  | String c _ => is_continuation c
  | EmptyString => false
  end.

(** The characters of a text, each with its code units: a unit opens a
    character unless it is a continuation. *)
Fixpoint split_chars (s : string) : list string :=
  match s with
  | EmptyString => []
  | String c s' =>
      match split_chars s' with
      | ch :: rest =>
          if starts_with_continuation ch then String c ch :: rest
          else String c "" :: ch :: rest
      | [] => [String c ""]
      end
  end.

(** Texts put end to end. *)
Definition joined (l : list string) : string := fold_right append "" l.

(** The code point of a character given by its code units. *)
Definition code_point (ch : string) : N :=
  match map N_of_ascii (list_ascii_of_string ch) with
  | [a] => a
  | [a; b] => (a mod 32) * 64 + b mod 64
  | [a; b; c] => (a mod 16) * 4096 + (b mod 64) * 64 + c mod 64
  | [a; b; c; d] =>
      (a mod 8) * 262144 + (b mod 64) * 4096 + (c mod 64) * 64 + d mod 64
  | _ => 0
  end%N.

(** The one-character texts a [for] loop over a [str] visits. *)
Definition chars (s : string) : list json := map JStr (split_chars s).

(** The elements a [for] loop visits. *)
Definition iter (v : json) : result (list json) :=
  match v with
  | JArr l => ok l
  | JObj fields => ok (map (fun kv => JStr (fst kv)) fields)
  | JStr s => ok (chars s)
  | _ => raise (not_iterable v)
  end.

(** *** [str.strip] *)

(** [str.isspace] on one character: U+0009 to U+000D, U+001C to U+0020,
    U+0085, U+00A0, U+1680, U+2000 to U+200A, U+2028, U+2029, U+202F,
    U+205F and U+3000. *)
Definition is_space (ch : string) : bool :=
  let n := code_point ch in
  ((9 <=? n) && (n <=? 13) || (28 <=? n) && (n <=? 32)
   || (n =? 133) || (n =? 160) || (n =? 5760)
   || (8192 <=? n) && (n <=? 8202) || (n =? 8232) || (n =? 8233)
   || (n =? 8239) || (n =? 8287) || (n =? 12288))%N.

(** The characters left once the leading white space is dropped. *)
Fixpoint drop_spaces (l : list string) : list string :=
  match l with
  | [] => []
  | ch :: l' => if is_space ch then drop_spaces l' else l
  end.

(** [s.strip()]: the text without its leading and trailing white space. *)
Definition strip (s : string) : string :=
  joined (rev (drop_spaces (rev (drop_spaces (split_chars s))))).

(** [v.strip()]: only a [str] has the method. *)
Definition strip_method (v : json) : result string :=
  match v with
  | JStr s => ok (strip s)
  | _ => raise (no_attribute v "strip")
  end.

(** *** [str] and [repr] *)

Definition dquote : ascii := "034".
Definition squote : ascii := "'".
Definition backslash : ascii := "\".
Definition TAB : ascii := "009".
Definition LF : ascii := "010".
Definition CR : ascii := "013".

Fixpoint contains (c : ascii) (s : string) : bool :=
  match s with
  | EmptyString => false
  | String c' s' => Ascii.eqb c c' || contains c s'
  end.

Definition hex_digit (n : N) : ascii :=
  match String.get (N.to_nat n) "0123456789abcdef" with
  | Some c => c
  | None => "0"%char
  end.

(** [n] in hexadecimal, on [width] digits. *)
Fixpoint hex (width : nat) (n : N) : string :=
  match width with
  | O => ""
  | S w => hex w (n / 16) ++ String (hex_digit (n mod 16)) ""
  end.

(** The code points above U+00FF that [repr] escapes whatever the version
    of Unicode: separators, format characters, surrogates, private use,
    noncharacters and the planes without any character. *)
Definition never_printable (n : N) : bool :=
  ((1536 <=? n) && (n <=? 1541) || (n =? 1564) || (n =? 1757) || (n =? 1807)
   || (n =? 2192) || (n =? 2193) || (n =? 2274)
   || (n =? 5760) || (n =? 6158)
   || (8192 <=? n) && (n <=? 8207) || (8232 <=? n) && (n <=? 8239)
   || (8287 <=? n) && (n <=? 8303) || (n =? 12288)
   || (55296 <=? n) && (n <=? 63743)
   || (64976 <=? n) && (n <=? 65007) || (n =? 65279)
   || (65529 <=? n) && (n <=? 65531) || (65534 <=? n mod 65536)
   || (n =? 69821) || (n =? 69837) || (78896 <=? n) && (n <=? 78911)
   || (113824 <=? n) && (n <=? 113827) || (119155 <=? n) && (n <=? 119162)
   || (262144 <=? n) && (n <=? 917759) || (918000 <=? n))%N.

(** [str.isprintable] on the code point of one character.  Below U+0100
    the test is the one of every version of Unicode; above, a code point
    that a version leaves unassigned and a later one may assign is taken
    as printable. *)
Definition is_printable (n : N) : bool :=
  negb ((n <? 32) || (n =? 127) || (128 <=? n) && (n <=? 160) || (n =? 173)
        || never_printable n)%N.

(** The escape of a character that is not printable. *)
Definition escape (n : N) : string :=
  if (n <? 256)%N then String backslash (String "x" (hex 2 n))
  else if (n <? 65536)%N then String backslash (String "u" (hex 4 n))
  else String backslash (String "U" (hex 8 n)).

(** One character of the [repr] of a [str] written between quotes [q]. *)
Definition repr_char (q : ascii) (ch : string) : string :=
  if String.eqb ch (String q "") || String.eqb ch (String backslash "")
  then String backslash ch
  else if String.eqb ch (String TAB "") then "\t"
  else if String.eqb ch (String LF "") then "\n"
  else if String.eqb ch (String CR "") then "\r"
  else if is_printable (code_point ch) then ch
  else escape (code_point ch).

Definition repr_chars (q : ascii) (s : string) : string :=
  joined (map (repr_char q) (split_chars s)).

(** [repr(s)] for a [str]: single quotes unless the text has one and has
    no double quote. *)
Definition repr_str (s : string) : string :=
  let q := if contains squote s && negb (contains dquote s)
           then dquote else squote in
  String q (repr_chars q s ++ String q "").

Definition str_int (z : Z) : string := NilZero.string_of_int (Z.to_int z).

Fixpoint join (sep : string) (l : list string) : string :=
  match l with
  | [] => ""
  | [x] => x
  | x :: l' => x ++ sep ++ join sep l'
  end.

(** [repr(v)] *)
Fixpoint repr (v : json) : string :=
  match v with
  | JNull => "None"
  | JBool b => if b then "True" else "False"
  | JInt z => str_int z
  | JFloat r => r
  | JStr s => repr_str s
  | JArr l => "[" ++ join ", " (map repr l) ++ "]"
  | JObj fields =>
      "{" ++ join ", " (map (fun kv => repr_str (fst kv) ++ ": " ++ repr (snd kv))
                            fields) ++ "}"
  end.

(** [str(v)] *)
Definition str (v : json) : string :=
  match v with
  | JStr s => s
  | _ => repr v
  end.

(** *** [str.encode] *)

(** The units of a text as bytes: its UTF-8 encoding when it has one. *)
Fixpoint encode_utf8 (s : string) : list byte :=
  match s with
  | EmptyString => []
  | String c s' => byte_of_ascii c :: encode_utf8 s'
  end.

(** The text whose units are the given bytes. *)
Fixpoint decode_utf8 (data : list byte) : string :=
  match data with
  | [] => EmptyString
  | b :: data' => String (ascii_of_byte b) (decode_utf8 data')
  end.

(** The second unit of a surrogate, after ED. *)
Definition surrogate_second (c : ascii) : bool :=
  let n := N_of_ascii c in ((160 <=? n) && (n <=? 191))%N.

Definition is_ED (c : ascii) : bool := (N_of_ascii c =? 237)%N.

(** A text that holds a surrogate. *)
Fixpoint has_surrogate (s : string) : bool :=
  match s with
  | EmptyString => false
  | String c s' =>
      is_ED c && match s' with
                 | String d _ => surrogate_second d
                 | EmptyString => false
                 end
      || has_surrogate s'
  end.

(** A character that is a surrogate, by its units. *)
Definition is_surrogate (ch : string) : bool :=
  match ch with
  | String c (String d _) => is_ED c && surrogate_second d
  | _ => false
  end.

(** The place of the first surrogate among characters, counted from
    [i], with the surrogate and the characters after it. *)
Fixpoint first_surrogate (l : list string) (i : nat)
    : option (nat * string * list string) :=
  match l with
  | [] => None
  | ch :: l' =>
      if is_surrogate ch then Some (i, ch, l') else first_surrogate l' (S i)
  end.

(** The number of surrogates a list of characters starts with. *)
Fixpoint surrogates_ahead (l : list string) : nat :=
  match l with
  | ch :: l' => if is_surrogate ch then S (surrogates_ahead l') else O
  | [] => O
  end.

Definition str_nat (n : nat) : string := NilZero.string_of_uint (Nat.to_uint n).

(** The [UnicodeEncodeError] of the strict UTF-8 encoder: it names the
    first surrogate, or the places of the first run of surrogates. *)
Definition encode_error (s : string) : exn :=
  Exn UnicodeEncodeError
      (match first_surrogate (split_chars s) 0 with
       | Some (i, ch, rest) =>
           match surrogates_ahead rest with
           | O =>
               "'utf-8' codec can't encode character '"
               ++ escape (code_point ch) ++ "' in position " ++ str_nat i
               ++ ": surrogates not allowed"
           | S n =>
               "'utf-8' codec can't encode characters in position "
               ++ str_nat i ++ "-" ++ str_nat (i + S n)
               ++ ": surrogates not allowed"
           end
       | None => "surrogates not allowed"
       end).

(** [s.encode("utf-8")] *)
Definition encode (s : string) : result (list byte) :=
  if has_surrogate s then raise (encode_error s) else ok (encode_utf8 s).

End Py.

Declare Scope result_scope.
Delimit Scope result_scope with result.
Notation "x <- m ;; k" := (Py.rbind m (fun x => k))
  (at level 61, m at next level, right associativity) : result_scope.

(* ================================================================== *)
(** ** The [csv] writer of the standard library, default dialect *)

Module Csv.
Import Py.

(** The characters that force a field between quotes: the delimiter, the
    quote character and the characters of the line terminator. *)
Definition special (c : ascii) : bool :=
  Ascii.eqb c "," || Ascii.eqb c dquote || Ascii.eqb c CR || Ascii.eqb c LF.

Fixpoint needs_quotes (s : string) : bool :=
  match s with
  | EmptyString => false
  | String c s' => special c || needs_quotes s'
  end.

Fixpoint double_quotes (s : string) : string :=
  match s with
  | EmptyString => EmptyString
  | String c s' =>
      if Ascii.eqb c dquote then String dquote (String dquote (double_quotes s'))
      else String c (double_quotes s')
  end.

(** The text of one cell: [None] is written as nothing, a [str] as it is,
    anything else through [str()]. *)
Definition cell (v : json) : string :=
  match v with
  | JNull => ""
  | _ => str v
  end.

(** The cell as it stands in the document. *)
Definition field (v : json) : string :=
  let s := cell v in
  if needs_quotes s then String dquote (double_quotes s ++ String dquote "")
  else s.

Definition CRLF : string := String CR (String LF "").

(** [writer.writerow(row)]: the text appended to the buffer.  A record
    made of one empty field is written as a pair of quotes. *)
Definition writerow (row : list json) : string :=
  let r := join "," (map field row) in
  (if String.eqb r "" && negb (Nat.eqb (List.length row) 0)
   then String dquote (String dquote "") else r) ++ CRLF.

(** A row of two cells or more. *)
Definition several (row : list json) : Prop :=
  match row with
  | _ :: _ :: _ => True
  | _ => False
  end.

(** *** The rows of a document

    The rows that the automaton of [csv.reader], default dialect, finds
    in a text, fed as by [csv.reader(io.StringIO(doc, newline=''))] with
    the characters of each line and then with the end of the line.  A
    NUL is a character like another, and the limit that a reader puts on
    the size of a field, a setting of the reading side, is left out. *)

Inductive mode :=
| START_RECORD
| START_FIELD
| IN_FIELD
| IN_QUOTED_FIELD
| QUOTE_IN_QUOTED_FIELD
| EAT_CRNL
| FAILED.

Record reader := Reader {
  state : mode;
  field_buf : string;
  fields : list string;
  records : list (list string)
}.

Definition add_char (r : reader) (c : ascii) (m : mode) : reader :=
  Reader m (field_buf r ++ String c "") (fields r) (records r).

Definition save_field (r : reader) (m : mode) : reader :=
  Reader m "" (fields r ++ [field_buf r])%list (records r).

Definition set_mode (r : reader) (m : mode) : reader :=
  Reader m (field_buf r) (fields r) (records r).

Definition is_newline (c : ascii) : bool := Ascii.eqb c CR || Ascii.eqb c LF.

Definition start_field (r : reader) (c : ascii) : reader :=
  if is_newline c then save_field r EAT_CRNL
  else if Ascii.eqb c dquote then set_mode r IN_QUOTED_FIELD
  else if Ascii.eqb c "," then save_field r START_FIELD
  else add_char r c IN_FIELD.

(** One character of a line. *)
Definition process (r : reader) (c : ascii) : reader :=
  match state r with
  | START_RECORD =>
      if is_newline c then set_mode r EAT_CRNL else start_field r c
  | START_FIELD => start_field r c
  | IN_FIELD =>
      if is_newline c then save_field r EAT_CRNL
      else if Ascii.eqb c "," then save_field r START_FIELD
      else add_char r c IN_FIELD
  | IN_QUOTED_FIELD =>
      if Ascii.eqb c dquote then set_mode r QUOTE_IN_QUOTED_FIELD
      else add_char r c IN_QUOTED_FIELD
  | QUOTE_IN_QUOTED_FIELD =>
      if Ascii.eqb c dquote then add_char r c IN_QUOTED_FIELD
      else if Ascii.eqb c "," then save_field r START_FIELD
      else if is_newline c then save_field r EAT_CRNL
      else add_char r c IN_FIELD
  | EAT_CRNL => if is_newline c then r else set_mode r FAILED
  | FAILED => r
  end.

(** The end of a line; a record is complete when the automaton is back
    at the start of a record. *)
Definition end_of_line (r : reader) : reader :=
  let r1 :=
    match state r with
    | START_FIELD | IN_FIELD | QUOTE_IN_QUOTED_FIELD => save_field r START_RECORD
    | EAT_CRNL => set_mode r START_RECORD
    | START_RECORD | IN_QUOTED_FIELD | FAILED => r
    end in
  match state r1 with
  | START_RECORD => Reader START_RECORD "" [] (records r1 ++ [fields r1])%list
  | _ => r1
  end.

(** A line ends after a line feed, after a carriage return that no line
    feed follows, and with the text. *)
Definition line_ends (c : ascii) (after : string) : bool :=
  match after with
  | EmptyString => true
  | String d _ => Ascii.eqb c LF || Ascii.eqb c CR && negb (Ascii.eqb d LF)
  end.

Fixpoint read_from (r : reader) (doc : string) : reader :=
  match doc with
  | EmptyString => r
  | String c doc' =>
      let r1 := process r c in
      read_from (if line_ends c doc' then end_of_line r1 else r1) doc'
  end.

(** The rows read from a document, [None] when the reader raises its
    error; a quoted field left open at the end of the text is closed. *)
Definition read (doc : string) : option (list (list string)) :=
  let r := read_from (Reader START_RECORD "" [] []) doc in
  match state r with
  | FAILED => None
  | IN_QUOTED_FIELD => Some (records r ++ [fields r ++ [field_buf r]])%list
  | _ => Some (records r)
  end.

End Csv.

(* ================================================================== *)
(** ** The HTTP boundary *)

Module Http.
Import Py.

(** What a request carries where a JSON document is expected. *)
Inductive request_body :=
| NoBody
| InvalidJson (raw : string)
| JsonBody (j : json).

(** [request.get_json(silent=True)]: [None] when the body is absent or
    does not parse. *)
Definition get_json_silent (b : request_body) : json :=
  match b with
  | JsonBody j => j
  | NoBody | InvalidJson _ => JNull
  end.

(** What a handler returns: [jsonify(payload), status], or the response
    built by [make_response] from bytes with its headers set. *)
Inductive response :=
| Jsonify (status : Z) (payload : json)
| Raw (status : Z) (headers : list (string * string)) (data : list byte).

(** [request.get_json(silent=True) or {}] *)
Definition request_data (b : request_body) : json :=
  por (get_json_silent b) (JObj []).

End Http.

(* ================================================================== *)
(** ** The CSV exporter: [api_export_csv] *)

Module CsvExport.
Import Py Http.
Local Open Scope result_scope.

Definition headers : list json :=
  [JStr "Name"; JStr "Address"; JStr "Rating"; JStr "Review Count";
   JStr "Phone"; JStr "Website"; JStr "Place ID"; JStr "Latitude";
   JStr "Longitude"].

(** The keys read from a record, in column order. *)
Definition columns : list string :=
  ["name"; "address"; "rating"; "reviewCount"; "phone"; "website";
   "placeId"; "lat"; "lng"].

(** [l.get(k, "") or ""] *)
Definition field_or_empty (l : json) (k : string) : result json :=
  v <- get l k (JStr "") ;; ok (por v (JStr "")).

(** The list handed to [writer.writerow] for one element of [leads]. *)
Definition lead_row (l : json) : result (list json) :=
  name <- field_or_empty l "name" ;;
  address <- field_or_empty l "address" ;;
  rating <- field_or_empty l "rating" ;;
  reviewCount <- field_or_empty l "reviewCount" ;;
  phone <- field_or_empty l "phone" ;;
  website <- field_or_empty l "website" ;;
  placeId <- field_or_empty l "placeId" ;;
  lat <- field_or_empty l "lat" ;;
  lng <- field_or_empty l "lng" ;;
  ok [name; address; rating; reviewCount; phone; website; placeId; lat; lng].

(** The [for l in leads] loop, on the content of the buffer. *)
Fixpoint write_rows (buf : string) (leads : list json) : result string :=
  match leads with
  | [] => ok buf
  | l :: rest =>
      row <- lead_row l ;;
      write_rows (buf ++ Csv.writerow row) rest
  end.

Definition csv_headers : list (string * string) :=
  [("Content-Type", "text/csv; charset=utf-8");
   ("Content-Disposition",
    "attachment; filename=" ++ String dquote ("leads.csv" ++ String dquote ""))].

Definition api_export_csv (body : request_body) : result response :=
  let data := request_data body in
  leads <- get data "leads" JNull ;;
  match leads with
  | JArr items =>
      let buf := "" ++ Csv.writerow headers in
      buf' <- write_rows buf items ;;
      csv_bytes <- encode buf' ;;
      ok (Raw 200 csv_headers csv_bytes)
  | _ => ok (Jsonify 400 (JObj [("error", JStr "No leads provided")]))
  end.

(** *** Reference points for the properties below *)

(** The header row as it stands in the document. *)
Definition header_line : string :=
  "Name,Address,Rating,Review Count,Phone,Website,Place ID,Latitude,Longitude"
  ++ Csv.CRLF.

(** The value found under [k] in a record, [None] when the key is absent. *)
Definition field_value (record : list (string * json)) (k : string) : json :=
  match assoc k record with
  | Some v => v
  | None => JNull
  end.

(** A field is populated when it is present and is not [None]. *)
Definition populated (record : list (string * json)) (k : string) : bool :=
  match assoc k record with
  | Some JNull | None => false
  | Some _ => true
  end.

(** The cell written for key [k] of a record. *)
Definition written (record : list (string * json)) (k : string) : json :=
  por (match assoc k record with Some v => v | None => JStr "" end) (JStr "").

(** The lines of a document put end to end. *)
Definition lines (l : list string) : string := fold_right append "" l.

(** A record whose nine fields are populated and whose review count is
    zero. *)
Definition zero_reviews : list (string * json) :=
  [("name", JStr "Cafe Zero"); ("address", JStr "1 Main St");
   ("rating", JFloat "4.5"); ("reviewCount", JInt 0);
   ("phone", JStr "+1 555 0100"); ("website", JStr "https://cafe.example");
   ("placeId", JStr "abc"); ("lat", JFloat "48.1"); ("lng", JFloat "2.3")].

(** The nine cells written for a record, in column order. *)
Definition record_row (record : list (string * json)) : list json :=
  map (written record) columns.

(** The header row as a reader of the document gives it. *)
Definition header_cells : list string :=
  ["Name"; "Address"; "Rating"; "Review Count"; "Phone"; "Website";
   "Place ID"; "Latitude"; "Longitude"].

(** A value that is neither a list nor an object. *)
Definition scalar (v : json) : bool := negb (is_list v || is_dict v).

(** A record whose nine written values are scalars. *)
Definition flat (record : list (string * json)) : Prop :=
  forall k, In k columns -> scalar (written record k) = true.

(** A record none of whose nine cells holds a surrogate. *)
Definition encodable (record : list (string * json)) : Prop :=
  forall k, In k columns -> has_surrogate (Csv.cell (written record k)) = false.

(** A row read back from the document stands for a record when it has
    nine cells, which are the cells written for the record when the
    record is flat. *)
Definition row_of (record : list (string * json)) (row : list string) : Prop :=
  List.length row = 9%nat
  /\ (flat record -> row = map Csv.cell (record_row record)).

(** The character U+D800, a surrogate without its pair. *)
Definition lone_surrogate : string :=
  String "237" (String "160" (String "128" "")).

(** Three records, the first one twice, with a comma and a quote in a
    name. *)
Definition quoted_name : list (string * json) :=
  [("name", JStr ("B, " ++ String dquote ("Inc" ++ String dquote "")));
   ("placeId", JStr "p2")].

Definition three_records : list (list (string * json)) :=
  [quoted_name; [("name", JStr "A")]; quoted_name].

End CsvExport.

(* ================================================================== *)
(** ** Outbound calls *)

Module Io.
Import Py.

(** What the handler does to the outside, in the order it does it. *)
Inductive event :=
| HttpGet (url : string) (params : list (string * json)) (timeout : Z)
| Sleep (seconds : string).

(** The outcome of [requests.get]: an exception, or a response, given by
    what its [json()] method returns or raises. *)
Inductive http_outcome :=
| Fails (e : exn)
| Responds (decoded : result json).

(** The process configuration and the places provider.  The provider
    answers a call knowing everything that happened before it. *)
Record env := Env {
  API_KEY : option string;
  upstream : list event -> string -> list (string * json) -> http_outcome
}.

(** A computation that may raise and that logs its events. *)
Definition M (A : Type) : Type := env -> list event -> result A * list event.

Definition ret {A} (a : A) : M A := fun _ log => (inr a, log).

Definition throw {A} (e : exn) : M A := fun _ log => (inl e, log).

Definition bind {A B} (m : M A) (k : A -> M B) : M B :=
  fun w log =>
    match m w log with
    | (inl e, log') => (inl e, log')
    | (inr a, log') => k a w log'
    end.

Definition lift {A} (r : result A) : M A :=
  match r with
  | inl e => throw e
  | inr a => ret a
  end.

(** [try: m  except Exception as e: h e] *)
Definition try_except {A} (m : M A) (h : exn -> M A) : M A :=
  fun w log =>
    match m w log with
    | (inl e, log') => h e w log'
    | (inr a, log') => (inr a, log')
    end.

Definition api_key : M json :=
  fun w log =>
    (inr (match API_KEY w with Some k => JStr k | None => JNull end), log).

(** [requests.get(url, params=params, timeout=timeout)] *)
Definition requests_get (url : string) (params : list (string * json))
    (timeout : Z) : M (result json) :=
  fun w log =>
    let log' := (log ++ [HttpGet url params timeout])%list in
    match upstream w log url params with
    | Fails e => (inl e, log')
    | Responds r => (inr r, log')
    end.

(** [r.json()] *)
Definition response_json (r : result json) : result json := r.

(** [time.sleep(seconds)] *)
Definition sleep (seconds : string) : M unit :=
  fun _ log => (inr tt, (log ++ [Sleep seconds])%list).

End Io.

Declare Scope io_scope.
Delimit Scope io_scope with io.
Notation "x <- m ;; k" := (Io.bind m (fun x => k))
  (at level 61, m at next level, right associativity) : io_scope.
Notation "' ( x , y ) <- m ;; k" := (Io.bind m (fun p => let '(x, y) := p in k))
  (at level 61, x name, y name, m at next level, right associativity) : io_scope.

(* ================================================================== *)
(** ** The search aggregator: [api_search] *)

Module Search.
Import Py Http Io.
Local Open Scope io_scope.

Record Lead := mkLead {
  name : json;
  address : json;
  rating : json;
  reviewCount : json;
  phone : json;
  website : json;
  placeId : json;
  lat : json;
  lng : json
}.

(** [dataclasses.asdict] *)
Definition asdict (l : Lead) : json :=
  JObj [("name", name l); ("address", address l); ("rating", rating l);
        ("reviewCount", reviewCount l); ("phone", phone l);
        ("website", website l); ("placeId", placeId l);
        ("lat", lat l); ("lng", lng l)].

Definition textsearch_url : string :=
  "https://maps.googleapis.com/maps/api/place/textsearch/json".

Definition details_url : string :=
  "https://maps.googleapis.com/maps/api/place/details/json".

(** [[it.get("place_id") for it in items if it.get("place_id")]] *)
Fixpoint place_ids_of (items : list json) : result (list json) :=
  match items with
  | [] => ok []
  | it :: rest =>
      (c <- get it "place_id" JNull ;;
       if truthy c then
         v <- get it "place_id" JNull ;;
         ids <- place_ids_of rest ;;
         ok (v :: ids)
       else place_ids_of rest)%result
  end.

(** [if pagetoken:] on an optional [str] *)
Definition token_given (pagetoken : option string) : bool :=
  match pagetoken with
  | Some t => truthy (JStr t)
  | None => false
  end.

Definition search_params (key : json) (query : string)
    (pagetoken : option string) : list (string * json) :=
  match pagetoken with
  | Some t =>
      if truthy (JStr t) then [("key", key); ("pagetoken", JStr t)]
      else [("key", key); ("query", JStr query)]
  | None => [("key", key); ("query", JStr query)]
  end.

Definition google_text_search_once (query : string)
    (pagetoken : option string) : M (list json * json) :=
  key <- api_key ;;
  let params := search_params key query pagetoken in
  r <- requests_get textsearch_url params 30 ;;
  data <- lift (response_json r) ;;
  results <- lift (get data "results" (JArr [])) ;;
  items <- lift (iter results) ;;
  place_ids <- lift (place_ids_of items) ;;
  next_token <- lift (get data "next_page_token" JNull) ;;
  ret (place_ids, next_token).

Definition details_fields : string :=
  join "," ["name"; "formatted_address"; "international_phone_number";
            "website"; "rating"; "user_ratings_total"; "geometry"; "place_id"].

(** [(p.get("geometry") or {}).get("location", {}).get(k)] *)
Definition coordinate (p : json) (k : string) : result json :=
  (g <- get p "geometry" JNull ;;
   loc <- get (por g (JObj [])) "location" (JObj []) ;;
   get loc k JNull)%result.

(** The [Lead(...)] expression, its arguments evaluated in order. *)
Definition lead_of (p : json) : result Lead :=
  (name <- get p "name" (JStr "") ;;
   address <- get p "formatted_address" (JStr "") ;;
   rating <- get p "rating" JNull ;;
   reviewCount <- get p "user_ratings_total" JNull ;;
   phone <- get p "international_phone_number" JNull ;;
   website <- get p "website" JNull ;;
   placeId <- get p "place_id" (JStr "") ;;
   lat <- coordinate p "lat" ;;
   lng <- coordinate p "lng" ;;
   ok (mkLead name address rating reviewCount phone website placeId lat lng))%result.

Definition google_place_details (place_id : json) : M (option Lead) :=
  key <- api_key ;;
  let params := [("place_id", place_id); ("fields", JStr details_fields);
                 ("key", key)] in
  r <- requests_get details_url params 30 ;;
  dj <- lift (response_json r) ;;
  p <- lift (get dj "result" JNull) ;;
  if negb (truthy p) then ret None
  else
    l <- lift (lead_of p) ;;
    ret (Some l).

(** The [for pid in place_ids] loop; [leads] is the list built so far. *)
Fixpoint details_loop (leads : list Lead) (place_ids : list json)
    : M (list Lead) :=
  match place_ids with
  | [] => ret leads
  | pid :: rest =>
      lead <- google_place_details pid ;;
      let leads' := match lead with
                    | Some l => (leads ++ [l])%list
                    | None => leads
                    end in
      _ <- sleep "0.08" ;;
      details_loop leads' rest
  end.

(** [(data.get(k) or "").strip()] *)
Definition text_field (data : json) (k : string) : result string :=
  (v <- get data k JNull ;; strip_method (por v (JStr "")))%result.

Definition error_response (status : Z) (message : string) : response :=
  Jsonify status (JObj [("error", JStr message)]).

(** The body of the [try] block. *)
Definition search_body (query : string) (page_token : option string)
    : M response :=
  '(place_ids, next_token) <- google_text_search_once query page_token ;;
  leads <- details_loop [] place_ids ;;
  ret (Jsonify 200 (JObj [("leads", JArr (map asdict leads));
                          ("nextPageToken", por next_token (JStr ""))])).

(** The two [except] clauses. *)
Definition search_handler (e : exn) : M response :=
  if is_HTTPError e
  then ret (error_response 502 ("HTTP error: " ++ str_exn e))
  else ret (error_response 500 (str_exn e)).

Definition api_search (body : request_body) : M response :=
  let data := request_data body in
  category <- lift (text_field data "category") ;;
  location <- lift (text_field data "location") ;;
  token <- lift (text_field data "pageToken") ;;
  let page_token := if truthy (JStr token) then Some token else None in
  if (negb (truthy (JStr category)) || negb (truthy (JStr location)))
     && negb (token_given page_token)
  then ret (error_response 400 "category and location are required")
  else
    let query := category ++ " in " ++ location in
    try_except (search_body query page_token) search_handler.

(** *** Reference points for the properties below *)

(** [(data.get(k) or "")] is the text [s]: the entry is that text, or it
    is missing, [None] or another false value and [s] is empty. *)
Definition reads (data : json) (k s : string) : Prop :=
  exists v, get data k JNull = ok v /\ por v (JStr "") = JStr s.

(** The test of the handler on the three texts of a request: nothing to
    search for and no page to continue. *)
Definition rejected (category location token : string) : bool :=
  (String.eqb (strip category) "" || String.eqb (strip location) "")
  && String.eqb (strip token) "".

Definition query_of (category location : string) : string :=
  strip category ++ " in " ++ strip location.

Definition page_token_of (token : string) : option string :=
  if truthy (JStr (strip token)) then Some (strip token) else None.

Definition key_of (w : env) : json :=
  match API_KEY w with Some k => JStr k | None => JNull end.

Definition search_call (w : env) (category location token : string) : event :=
  HttpGet textsearch_url
          (search_params (key_of w) (query_of category location)
                         (page_token_of token)) 30.

Definition details_call (w : env) (place_id : json) : event :=
  HttpGet details_url
          [("place_id", place_id); ("fields", JStr details_fields);
           ("key", key_of w)] 30.

(** Each identifier looked up in turn, with the pause that follows the
    lookup: the outcomes, one per identifier. *)
Fixpoint lookups (place_ids : list json) : M (list (option Lead)) :=
  match place_ids with
  | [] => ret []
  | pid :: rest =>
      o <- google_place_details pid ;;
      _ <- sleep "0.08" ;;
      os <- lookups rest ;;
      ret (o :: os)
  end.

(** The leads among the outcomes, in the order of the outcomes. *)
Fixpoint found (outcomes : list (option Lead)) : list Lead :=
  match outcomes with
  | [] => []
  | Some l :: os => l :: found os
  | None :: os => found os
  end.

(** An event that is not a call to the search endpoint. *)
Definition after_search (ev : event) : Prop :=
  match ev with
  | HttpGet url _ _ => url = details_url
  | Sleep _ => True
  end.

(** The value of the [next_page_token] entry of a response. *)
Definition next_page_token (fields : list (string * json)) : json :=
  match assoc "next_page_token" fields with
  | Some v => v
  | None => JNull
  end.

End Search.

(* ================================================================== *)
(** ** Scenarios *)

Module Scenario.
Import Py Http Io Search.

Definition place (id title : string) : json :=
  JObj [("result", JObj [("name", JStr title); ("place_id", JStr id)])].

Definition three_results : json :=
  JObj [("results", JArr [JObj [("place_id", JStr "id1")];
                          JObj [("place_id", JStr "id2")];
                          JObj [("place_id", JStr "id3")]])].

Definition read_timeout : exn :=
  Exn Timeout "HTTPSConnectionPool(host='maps.googleapis.com', port=443): Read timed out. (read timeout=30)".

Definition requested_place (params : list (string * json)) : string :=
  match assoc "place_id" params with
  | Some (JStr id) => id
  | _ => ""
  end.

(** A provider that knows three places by the search and has details
    for the first and the third only. *)
Definition second_unknown : env :=
  Env (Some "secret")
      (fun _ url params =>
         if String.eqb url textsearch_url then Responds (ok three_results)
         else if String.eqb (requested_place params) "id1"
              then Responds (ok (place "id1" "One"))
         else if String.eqb (requested_place params) "id3"
              then Responds (ok (place "id3" "Three"))
         else Responds (ok (JObj [("status", JStr "NOT_FOUND")]))).

(** A provider whose search endpoint times out. *)
Definition search_times_out : env :=
  Env (Some "secret") (fun _ _ _ => Fails read_timeout).

(** A provider that answers the search and the first details call, and
    times out on the second details call. *)
Definition second_times_out : env :=
  Env (Some "secret")
      (fun _ url params =>
         if String.eqb url textsearch_url then Responds (ok three_results)
         else if String.eqb (requested_place params) "id1"
              then Responds (ok (place "id1" "One"))
         else Fails read_timeout).

Definition cafes_in_paris : request_body :=
  JsonBody (JObj [("category", JStr "cafe"); ("location", JStr " Paris ")]).

Definition next_page : request_body :=
  JsonBody (JObj [("pageToken", JStr "tok123")]).

Definition blank_request : request_body :=
  JsonBody (JObj [("category", JStr "   "); ("location", JStr "Paris");
                  ("pageToken", JStr " ")]).

Definition lead (id title : string) : Lead :=
  mkLead (JStr title) (JStr "") JNull JNull JNull JNull (JStr id) JNull JNull.

End Scenario.

(* ================================================================== *)
(** ** Shapes of documents and further scenarios *)

Module Shapes.
Import Py Http Io Search Scenario.

(** The value of entry [k] of an object, [default] when it has none. *)
Definition entry (fields : list (string * json)) (k : string)
    (default : json) : json :=
  match assoc k fields with
  | Some v => v
  | None => default
  end.

(** A text made of white space only. *)
Definition blank (s : string) : bool := forallb is_space (split_chars s).

(** The values that are false in a condition. *)
Definition falsy_values : list json :=
  [JNull; JBool false; JInt 0; JFloat "0.0"; JFloat "-0.0"; JStr "";
   JArr []; JObj []].

(** The events of the lookups of a list of identifiers: for each one its
    details call, then the pause. *)
Definition lookup_events (w : env) (ids : list json) : list event :=
  flat_map (fun pid => [details_call w pid; Sleep "0.08"]) ids.

(** The entries of [asdict l]. *)
Definition asdict_fields (l : Lead) : list (string * json) :=
  [("name", name l); ("address", address l); ("rating", rating l);
   ("reviewCount", reviewCount l); ("phone", phone l);
   ("website", website l); ("placeId", placeId l);
   ("lat", lat l); ("lng", lng l)].

(** The nine values of a lead in column order, each replaced by the empty
    text when it is false in a condition. *)
Definition lead_cells (l : Lead) : list json :=
  map (fun v => por v (JStr ""))
      [name l; address l; rating l; reviewCount l; phone l; website l;
       placeId l; lat l; lng l].

(** The lead built from the entries of a result, with the coordinates
    given apart. *)
Definition lead_with (p : list (string * json)) (latitude longitude : json)
    : Lead :=
  mkLead (entry p "name" (JStr "")) (entry p "formatted_address" (JStr ""))
         (entry p "rating" JNull) (entry p "user_ratings_total" JNull)
         (entry p "international_phone_number" JNull) (entry p "website" JNull)
         (entry p "place_id" (JStr "")) latitude longitude.

(** The answer of the two [except] clauses to an exception. *)
Definition answer_to (e : exn) : response :=
  if is_HTTPError e
  then error_response 502 ("HTTP error: " ++ str_exn e)
  else error_response 500 (str_exn e).

(** A provider that gives one answer to the search and one answer to
    every details call. *)
Definition answering (search details : http_outcome) : env :=
  Env (Some "secret")
      (fun _ url _ =>
         if String.eqb url textsearch_url then search else details).

Definition request_denied : list (string * json) :=
  [("status", JStr "REQUEST_DENIED");
   ("error_message", JStr "The provided API key is invalid.")].

Definition not_json : exn :=
  Exn JSONDecodeError "Expecting value: line 1 column 1 (char 0)".

Definition bad_gateway : exn :=
  Exn HTTPError "502 Server Error: Bad Gateway for url".

Definition cafe_result : list (string * json) :=
  [("name", JStr "Cafe Zero"); ("rating", JFloat "4.5");
   ("user_ratings_total", JInt 0); ("place_id", JStr "abc");
   ("geometry",
    JObj [("location", JObj [("lat", JFloat "48.1"); ("lng", JFloat "2.3")])])].

Definition bare_result : list (string * json) :=
  [("name", JNull); ("place_id", JStr "abc"); ("geometry", JNull)].

Definition null_location_result : list (string * json) :=
  [("name", JStr "Cafe"); ("geometry", JObj [("location", JNull)])].

End Shapes.

(* ================================================================== *)
(** * Properties of the CSV exporter *)

Section StringFacts.

Lemma append_nil_r (s : string) : s ++ "" = s.
Proof. induction s; simpl; congruence. Qed.

Lemma append_assoc (a b c : string) : (a ++ b) ++ c = a ++ (b ++ c).
Proof. induction a; simpl; congruence. Qed.

End StringFacts.

Section CsvFacts.
Import Py Csv.

Lemma append_not_empty (a b : string) (c : ascii) : a ++ String c b <> "".
Proof. destruct a; discriminate. Qed.

Lemma special_false (c : ascii) :
  special c = false ->
  Ascii.eqb c "," = false /\ Ascii.eqb c dquote = false
  /\ is_newline c = false.
Proof.
  unfold special, is_newline. intros H.
  apply orb_false_iff in H. destruct H as [H H4].
  apply orb_false_iff in H. destruct H as [H H3].
  apply orb_false_iff in H. destruct H as [H1 H2].
  rewrite H1, H2, H3, H4. repeat split.
Qed.

(** No line ends after a character that is no line break and is not the
    last one. *)
Lemma line_ends_inside (c : ascii) (after : string) :
  is_newline c = false -> after <> "" -> line_ends c after = false.
Proof.
  unfold is_newline, line_ends. intros H Hn.
  apply orb_false_iff in H. destruct H as [H1 H2].
  destruct after; [contradiction|]. rewrite H1, H2. reflexivity.
Qed.

(** The characters of a text, put end to end, are the text. *)
Lemma joined_split_chars (s : string) : joined (split_chars s) = s.
Proof.
  induction s as [|c s IH]; [reflexivity|].
  cbn [split_chars]. destruct (split_chars s) as [|ch rest].
  - cbn [joined fold_right] in *. now rewrite <- IH.
  - destruct (starts_with_continuation ch);
      cbn [joined fold_right append] in *; now rewrite IH.
Qed.

(** *** Reading what the writer wrote *)

(** A field written without quotes, before a comma. *)
Lemma read_plain_comma (s : string) :
  forall m f fs rs rest,
    needs_quotes s = false ->
    m = START_RECORD \/ m = START_FIELD \/ m = IN_FIELD ->
    rest <> "" ->
    read_from (Reader m f fs rs) (s ++ String "," rest)
    = read_from (Reader START_FIELD "" (fs ++ [append f s])%list rs) rest.
Proof.
  induction s as [|c s IH]; intros m f fs rs rest Hq Hm Hrest.
  - cbn [append read_from]. rewrite (line_ends_inside "," rest eq_refl Hrest).
    rewrite append_nil_r.
    destruct Hm as [->|[->| ->]]; reflexivity.
  - cbn [needs_quotes] in Hq. apply orb_false_iff in Hq. destruct Hq as [Hc Hs].
    destruct (special_false c Hc) as (H1 & H2 & H3).
    cbn [append read_from].
    rewrite (line_ends_inside c _ H3 (append_not_empty s rest ",")).
    assert (Hp : process (Reader m f fs rs) c
                 = Reader IN_FIELD (f ++ String c "") fs rs).
    { destruct Hm as [->|[->| ->]]; unfold process, start_field, add_char;
        cbn [state field_buf fields records]; rewrite ?H1, ?H2, ?H3; reflexivity. }
    rewrite Hp, (IH IN_FIELD _ fs rs rest Hs (or_intror (or_intror eq_refl)) Hrest).
    rewrite append_assoc. reflexivity.
Qed.

(** A field written without quotes, at the end of a row. *)
Lemma read_plain_crlf (s : string) :
  forall m f fs rs rest,
    needs_quotes s = false ->
    m = START_FIELD \/ m = IN_FIELD ->
    read_from (Reader m f fs rs) (s ++ String CR (String LF rest))
    = read_from (Reader START_RECORD "" [] (rs ++ [fs ++ [append f s]])%list) rest.
Proof.
  induction s as [|c s IH]; intros m f fs rs rest Hq Hm.
  - cbn [append read_from]. rewrite append_nil_r.
    destruct Hm as [->| ->]; destruct rest; reflexivity.
  - cbn [needs_quotes] in Hq. apply orb_false_iff in Hq. destruct Hq as [Hc Hs].
    destruct (special_false c Hc) as (H1 & H2 & H3).
    cbn [append read_from].
    rewrite (line_ends_inside c _ H3 (append_not_empty s _ CR)).
    assert (Hp : process (Reader m f fs rs) c
                 = Reader IN_FIELD (f ++ String c "") fs rs).
    { destruct Hm as [->| ->]; unfold process, start_field, add_char;
        cbn [state field_buf fields records]; rewrite ?H1, ?H2, ?H3; reflexivity. }
    rewrite Hp, (IH IN_FIELD _ fs rs rest Hs (or_intror eq_refl)).
    rewrite append_assoc. reflexivity.
Qed.

(** The inside of a field written between quotes. *)
Lemma read_quoted_inside (s : string) :
  forall f fs rs rest,
    rest <> "" ->
    read_from (Reader IN_QUOTED_FIELD f fs rs) (double_quotes s ++ rest)
    = read_from (Reader IN_QUOTED_FIELD (f ++ s) fs rs) rest.
Proof.
  induction s as [|c s IH]; intros f fs rs rest Hrest.
  - cbn [double_quotes append]. now rewrite append_nil_r.
  - cbn [double_quotes]. destruct (Ascii.eqb c dquote) eqn:E.
    + apply Ascii.eqb_eq in E. subst c.
      cbn [append read_from]. 
      replace (line_ends dquote (String dquote (double_quotes s ++ rest)))
        with false by reflexivity.
      assert (Hin : line_ends dquote (double_quotes s ++ rest) = false).
      { apply line_ends_inside; [reflexivity|].
        destruct (double_quotes s); [exact Hrest|discriminate]. }
      rewrite Hin.
      replace (process (process (Reader IN_QUOTED_FIELD f fs rs) dquote) dquote)
        with (Reader IN_QUOTED_FIELD (f ++ String dquote "") fs rs)
        by reflexivity.
      rewrite (IH _ fs rs rest Hrest), append_assoc. reflexivity.
    + cbn [append read_from].
      assert (Hp : process (Reader IN_QUOTED_FIELD f fs rs) c
                   = Reader IN_QUOTED_FIELD (f ++ String c "") fs rs).
      { unfold process, add_char. cbn [state field_buf fields records].
        rewrite E. reflexivity. }
      rewrite Hp.
      assert (He : (if line_ends c (double_quotes s ++ rest)
                    then end_of_line (Reader IN_QUOTED_FIELD (f ++ String c "") fs rs)
                    else Reader IN_QUOTED_FIELD (f ++ String c "") fs rs)
                   = Reader IN_QUOTED_FIELD (f ++ String c "") fs rs)
        by (destruct (line_ends c _); reflexivity).
      rewrite He, (IH _ fs rs rest Hrest), append_assoc. reflexivity.
Qed.

(** A field written between quotes, before a comma. *)
Lemma read_quoted_comma (s : string) (m : mode) (f : string)
    (fs : list string) (rs : list (list string)) (rest : string) :
  m = START_RECORD \/ m = START_FIELD ->
  rest <> "" ->
  read_from (Reader m f fs rs)
            (String dquote (double_quotes s ++ String dquote (String "," rest)))
  = read_from (Reader START_FIELD "" (fs ++ [append f s])%list rs) rest.
Proof.
  intros Hm Hrest. cbn [read_from].
  assert (Hin : line_ends dquote (double_quotes s ++ String dquote (String "," rest))
                = false).
  { apply line_ends_inside; [reflexivity|apply append_not_empty]. }
  rewrite Hin.
  assert (Hp : process (Reader m f fs rs) dquote = Reader IN_QUOTED_FIELD f fs rs)
    by (destruct Hm as [->| ->]; reflexivity).
  rewrite Hp, read_quoted_inside by discriminate.
  cbn [read_from]. rewrite (line_ends_inside "," rest eq_refl Hrest). reflexivity.
Qed.

(** A field written between quotes, at the end of a row. *)
Lemma read_quoted_crlf (s : string) (f : string)
    (fs : list string) (rs : list (list string)) (rest : string) :
  read_from (Reader START_FIELD f fs rs)
            (String dquote
                    (double_quotes s ++ String dquote (String CR (String LF rest))))
  = read_from (Reader START_RECORD "" [] (rs ++ [fs ++ [append f s]])%list) rest.
Proof.
  cbn [read_from].
  assert (Hin : line_ends dquote
                  (double_quotes s ++ String dquote (String CR (String LF rest)))
                = false).
  { apply line_ends_inside; [reflexivity|apply append_not_empty]. }
  rewrite Hin.
  replace (process (Reader START_FIELD f fs rs) dquote)
    with (Reader IN_QUOTED_FIELD f fs rs) by reflexivity.
  rewrite read_quoted_inside by discriminate.
  cbn [read_from]. destruct rest; reflexivity.
Qed.

Lemma field_comma (v : json) (m : mode) (fs : list string)
    (rs : list (list string)) (rest : string) :
  m = START_RECORD \/ m = START_FIELD ->
  rest <> "" ->
  read_from (Reader m "" fs rs) (field v ++ String "," rest)
  = read_from (Reader START_FIELD "" (fs ++ [cell v])%list rs) rest.
Proof.
  intros Hm Hrest. unfold field. destruct (needs_quotes (cell v)) eqn:Q.
  - cbn [append]. rewrite append_assoc. cbn [append].
    now rewrite read_quoted_comma.
  - rewrite read_plain_comma; [reflexivity|exact Q| |exact Hrest].
    destruct Hm as [->| ->]; [now left|now right; left].
Qed.

Lemma field_crlf (v : json) (fs : list string) (rs : list (list string))
    (rest : string) :
  read_from (Reader START_FIELD "" fs rs)
            (field v ++ String CR (String LF rest))
  = read_from (Reader START_RECORD "" [] (rs ++ [fs ++ [cell v]])%list) rest.
Proof.
  unfold field. destruct (needs_quotes (cell v)) eqn:Q.
  - cbn [append]. rewrite append_assoc. cbn [append].
    now rewrite read_quoted_crlf.
  - rewrite read_plain_crlf; [reflexivity|exact Q|now left].
Qed.

(** The cells of a row after the first one. *)
Lemma read_cells (cells : list json) :
  forall fs rs rest,
    cells <> [] ->
    read_from (Reader START_FIELD "" fs rs)
              (join "," (map field cells) ++ String CR (String LF rest))
    = read_from (Reader START_RECORD "" [] (rs ++ [fs ++ map cell cells])%list) rest.
Proof.
  induction cells as [|v cells IH]; intros fs rs rest Hne; [contradiction|].
  destruct cells as [|v' cells'].
  - cbn [map join]. apply field_crlf.
  - change (join "," (map field (v :: v' :: cells')))
      with (field v ++ "," ++ join "," (map field (v' :: cells'))).
    rewrite append_assoc.
    change (("," ++ join "," (map field (v' :: cells')))
            ++ String CR (String LF rest))
      with (String "," (join "," (map field (v' :: cells'))
                        ++ String CR (String LF rest))).
    rewrite field_comma; [|now right|apply append_not_empty].
    rewrite IH by discriminate.
    cbn [map]. rewrite <- app_assoc. reflexivity.
Qed.

Lemma writerow_several (row : list json) :
  several row ->
  writerow row = join "," (map field row) ++ CRLF.
Proof.
  destruct row as [|v [|v' row']]; try contradiction. intros _.
  unfold writerow.
  change (join "," (map field (v :: v' :: row')))
    with (field v ++ String "," (join "," (map field (v' :: row')))).
  destruct (field v); reflexivity.
Qed.

Lemma read_row (row : list json) (rs : list (list string)) (rest : string) :
  several row ->
  read_from (Reader START_RECORD "" [] rs) (writerow row ++ rest)
  = read_from (Reader START_RECORD "" [] (rs ++ [map cell row])%list) rest.
Proof.
  intros Hrow. rewrite (writerow_several row Hrow), append_assoc.
  destruct row as [|v [|v' row']]; try contradiction.
  change (join "," (map field (v :: v' :: row')))
    with (field v ++ "," ++ join "," (map field (v' :: row'))).
  rewrite append_assoc.
  change (("," ++ join "," (map field (v' :: row'))) ++ CRLF ++ rest)
    with (String "," (join "," (map field (v' :: row'))
                      ++ String CR (String LF rest))).
  rewrite field_comma; [|now left|apply append_not_empty].
  rewrite read_cells by discriminate. reflexivity.
Qed.

Lemma read_rows (rows : list (list json)) :
  forall rs,
    Forall several rows ->
    read_from (Reader START_RECORD "" [] rs) (joined (map writerow rows))
    = Reader START_RECORD "" [] (rs ++ map (map cell) rows)%list.
Proof.
  induction rows as [|row rows IH]; intros rs Hall.
  - cbn [map joined fold_right read_from]. now rewrite app_nil_r.
  - inversion Hall as [|? ? Hrow Hrows]; subst.
    cbn [map joined fold_right]. fold (joined (map writerow rows)).
    rewrite read_row by exact Hrow. rewrite IH by exact Hrows.
    cbn [map]. rewrite <- app_assoc. reflexivity.
Qed.

(** Reading back the rows that were written gives their cells. *)
Lemma read_written (rows : list (list json)) :
  Forall several rows ->
  read (joined (map writerow rows)) = Some (map (map cell) rows).
Proof.
  intros Hall. unfold read. rewrite read_rows by exact Hall. reflexivity.
Qed.

(** *** Texts that UTF-8 can encode *)

Lemma decode_encode (s : string) : decode_utf8 (encode_utf8 s) = s.
Proof.
  induction s as [|c s IH]; [reflexivity|].
  cbn [encode_utf8 decode_utf8]. now rewrite ascii_of_byte_of_ascii, IH.
Qed.

Lemma encode_without_surrogate (s : string) :
  has_surrogate s = false -> encode s = ok (encode_utf8 s).
Proof. unfold encode. now intros ->. Qed.

Lemma encode_with_surrogate (s : string) :
  has_surrogate s = true -> encode s = raise (encode_error s).
Proof. unfold encode. now intros ->. Qed.

Lemma has_surrogate_cons (c : ascii) (s : string) :
  is_ED c = false -> has_surrogate (String c s) = has_surrogate s.
Proof. intros H. cbn [has_surrogate]. now rewrite H. Qed.

(** Putting a text that starts with no second unit of a surrogate after
    another one makes no surrogate. *)
Lemma has_surrogate_app (a b : string) :
  has_surrogate a = false ->
  has_surrogate b = false ->
  match b with String d _ => surrogate_second d = false | EmptyString => True end ->
  has_surrogate (a ++ b) = false.
Proof.
  intros Ha Hb Hlow. induction a as [|c a IH]; [exact Hb|].
  cbn [has_surrogate] in Ha. apply orb_false_iff in Ha. destruct Ha as [Hc Ha].
  cbn [append has_surrogate]. rewrite (IH Ha), orb_false_r.
  destruct a as [|d a'].
  - cbn [append]. destruct b as [|d b']; [exact Hc|].
    rewrite Hlow. apply andb_false_r.
  - exact Hc.
Qed.

Lemma double_quotes_head (s : string) :
  match double_quotes s with
  | String d _ => surrogate_second d
  | EmptyString => false
  end
  = match s with
    | String d _ => surrogate_second d
    | EmptyString => false
    end.
Proof.
  destruct s as [|c s]; [reflexivity|].
  cbn [double_quotes]. destruct (Ascii.eqb c dquote) eqn:E; [|reflexivity].
  apply Ascii.eqb_eq in E. now subst c.
Qed.

Lemma has_surrogate_double_quotes (s : string) :
  has_surrogate (double_quotes s) = has_surrogate s.
Proof.
  induction s as [|c s IH]; [reflexivity|].
  cbn [double_quotes]. destruct (Ascii.eqb c dquote) eqn:E.
  - apply Ascii.eqb_eq in E. subst c.
    rewrite !has_surrogate_cons by reflexivity. exact IH.
  - cbn [has_surrogate]. now rewrite double_quotes_head, IH.
Qed.

Lemma has_surrogate_field (v : json) :
  has_surrogate (cell v) = false -> has_surrogate (field v) = false.
Proof.
  intros H. unfold field. destruct (needs_quotes (cell v)); [|exact H].
  rewrite has_surrogate_cons by reflexivity.
  apply has_surrogate_app; [|reflexivity|reflexivity].
  now rewrite has_surrogate_double_quotes.
Qed.

Lemma has_surrogate_join (cells : list json) :
  Forall (fun v => has_surrogate (cell v) = false) cells ->
  has_surrogate (join "," (map field cells)) = false.
Proof.
  induction cells as [|v cells IH]; intros Hall; [reflexivity|].
  inversion Hall as [|? ? Hv Hcells]; subst.
  destruct cells as [|v' cells'].
  - cbn [map join]. now apply has_surrogate_field.
  - change (join "," (map field (v :: v' :: cells')))
      with (field v ++ String "," (join "," (map field (v' :: cells')))).
    apply has_surrogate_app; [now apply has_surrogate_field| |reflexivity].
    rewrite has_surrogate_cons by reflexivity. now apply IH.
Qed.

(** A row of encodable cells, followed by an encodable text. *)
Lemma has_surrogate_writerow (row : list json) (rest : string) :
  Forall (fun v => has_surrogate (cell v) = false) row ->
  has_surrogate rest = false ->
  has_surrogate (writerow row ++ rest) = false.
Proof.
  intros Hrow Hrest. unfold writerow. rewrite append_assoc.
  apply has_surrogate_app.
  - destruct (_ && _); [reflexivity|now apply has_surrogate_join].
  - unfold CRLF. cbn [append]. now rewrite !has_surrogate_cons by reflexivity.
  - reflexivity.
Qed.

Lemma has_surrogate_rows (rows : list (list json)) :
  Forall (Forall (fun v => has_surrogate (cell v) = false)) rows ->
  has_surrogate (joined (map writerow rows)) = false.
Proof.
  induction rows as [|row rows IH]; intros Hall; [reflexivity|].
  inversion Hall as [|? ? Hrow Hrows]; subst.
  cbn [map joined fold_right]. fold (joined (map writerow rows)).
  apply has_surrogate_writerow; [exact Hrow|now apply IH].
Qed.

(** A surrogate in a part of a text is a surrogate in the text. *)
Lemma has_surrogate_app_l (a b : string) :
  has_surrogate a = true -> has_surrogate (a ++ b) = true.
Proof.
  induction a as [|c a IH]; intros H; [discriminate H|].
  cbn [has_surrogate] in H. apply orb_true_iff in H.
  cbn [append has_surrogate]. apply orb_true_iff.
  destruct H as [H|H]; [left|right; now apply IH].
  destruct a as [|d a']; [now rewrite andb_false_r in H|exact H].
Qed.

Lemma has_surrogate_app_r (a b : string) :
  has_surrogate b = true -> has_surrogate (a ++ b) = true.
Proof.
  intros H. induction a as [|c a IH]; [exact H|].
  cbn [append has_surrogate]. rewrite IH. apply orb_true_r.
Qed.

Lemma has_surrogate_field_true (v : json) :
  has_surrogate (cell v) = true -> has_surrogate (field v) = true.
Proof.
  intros H. unfold field. destruct (needs_quotes (cell v)); [|exact H].
  rewrite has_surrogate_cons by reflexivity.
  apply has_surrogate_app_l. now rewrite has_surrogate_double_quotes.
Qed.

Lemma has_surrogate_join_true (cells : list json) (v : json) :
  In v cells ->
  has_surrogate (cell v) = true ->
  has_surrogate (join "," (map field cells)) = true.
Proof.
  intros Hin Hv. induction cells as [|x cells IH]; [destruct Hin|].
  destruct cells as [|x' cells'].
  - destruct Hin as [->|[]]. cbn [map join]. now apply has_surrogate_field_true.
  - change (join "," (map field (x :: x' :: cells')))
      with (field x ++ String "," (join "," (map field (x' :: cells')))).
    destruct Hin as [->|Hin].
    + now apply has_surrogate_app_l, has_surrogate_field_true.
    + apply has_surrogate_app_r. rewrite has_surrogate_cons by reflexivity.
      now apply IH.
Qed.

Lemma has_surrogate_writerow_true (row : list json) (v : json) :
  In v row ->
  has_surrogate (cell v) = true ->
  has_surrogate (writerow row) = true.
Proof.
  intros Hin Hv. unfold writerow. apply has_surrogate_app_l.
  pose proof (has_surrogate_join_true row v Hin Hv) as H.
  destruct (String.eqb_spec (join "," (map field row)) "") as [E|_].
  - rewrite E in H. discriminate H.
  - exact H.
Qed.

Lemma has_surrogate_rows_true (rows : list (list json)) (row : list json) :
  In row rows ->
  has_surrogate (writerow row) = true ->
  has_surrogate (joined (map writerow rows)) = true.
Proof.
  intros Hin Hrow. induction rows as [|x rows IH]; [destruct Hin|].
  cbn [map joined fold_right]. fold (joined (map writerow rows)).
  destruct Hin as [->|Hin].
  - now apply has_surrogate_app_l.
  - now apply has_surrogate_app_r, IH.
Qed.

End CsvFacts.

Section ExportProperties.
Import Py Http CsvExport.

Lemma writerow_headers : Csv.writerow headers = header_line.
Proof. reflexivity. Qed.

(** A mapping always gives its nine cells. *)
Lemma lead_row_record (record : list (string * json)) :
  lead_row (JObj record) = ok (record_row record).
Proof. reflexivity. Qed.

(** Anything else has no [get]. *)
Lemma lead_row_not_dict (x : json) :
  is_dict x = false -> lead_row x = raise (no_attribute x "get").
Proof. destruct x; simpl; intros H; try reflexivity; discriminate. Qed.

(** The loop appends one line per record to the buffer, in order. *)
Lemma write_rows_records (records : list (list (string * json))) :
  forall buf,
    write_rows buf (map JObj records)
    = ok (buf ++ lines (map (fun r => Csv.writerow (record_row r)) records)).
Proof.
  induction records as [|r rs IH]; intros buf.
  - simpl. now rewrite append_nil_r.
  - cbn [map write_rows]. rewrite lead_row_record. cbn [rbind ok].
    rewrite IH. unfold ok. now rewrite append_assoc.
Qed.

(** The loop stops with an [AttributeError] at the first element that is
    not a mapping, whatever was written before it. *)
Lemma write_rows_not_dict (items : list json) :
  forall buf x,
    In x items -> is_dict x = false ->
    exists e, write_rows buf items = raise e /\ exn_cls e = AttributeError.
Proof.
  induction items as [|y ys IH]; intros buf x Hin Hx; [destruct Hin|].
  destruct (is_dict y) eqn:Hy.
  - destruct y; try discriminate Hy.
    destruct Hin as [Heq|Hin]; [subst x; discriminate Hx|].
    cbn [write_rows]. rewrite lead_row_record. cbn [rbind ok].
    now apply IH with x.
  - exists (no_attribute y "get"). cbn [write_rows].
    rewrite (lead_row_not_dict _ Hy). split; reflexivity.
Qed.

(** What is written for a field that is missing or [None]: nothing. *)
Lemma written_unpopulated (record : list (string * json)) (k : string) :
  populated record k = false -> Csv.cell (written record k) = "".
Proof.
  unfold populated, written. destruct (assoc k record) as [[]|]; 
    intros H; try discriminate H; reflexivity.
Qed.

(** What is written for a field whose value is true in a condition: the
    value itself. *)
Lemma written_truthy (record : list (string * json)) (k : string) :
  truthy (field_value record k) = true ->
  written record k = field_value record k.
Proof.
  unfold written, field_value, por.
  destruct (assoc k record) as [v|]; simpl; intros H;
    [now rewrite H|discriminate H].
Qed.

(** What is written for any other field: the empty text, also when the
    field holds [0], [0.0], [False] or an empty container. *)
Lemma written_falsy (record : list (string * json)) (k : string) :
  truthy (field_value record k) = false ->
  written record k = JStr "".
Proof.
  unfold written, field_value, por.
  destruct (assoc k record) as [v|]; simpl; intros H; [now rewrite H|reflexivity].
Qed.

(** A record all of whose nine values are true in a condition is
    written value for value. *)
Lemma record_row_truthy (record : list (string * json)) :
  (forall k, In k columns -> truthy (field_value record k) = true) ->
  record_row record = map (field_value record) columns.
Proof.
  intros H. unfold record_row. apply map_ext_in.
  intros k Hk. apply written_truthy. now apply H.
Qed.

(** A request whose JSON document is neither an object nor a false value
    has no [get]: the handler raises before it looks at [leads]. *)
Lemma export_non_object_body (j : json) :
  truthy j = true -> is_dict j = false ->
  api_export_csv (JsonBody j) = raise (no_attribute j "get").
Proof.
  intros Ht Hd. unfold api_export_csv, request_data, por. cbn [get_json_silent].
  rewrite Ht. destruct j; try reflexivity. discriminate Hd.
Qed.

(** C2 (evaluation at the failing input).  The record [zero_reviews] has
    its nine fields populated and its review count is the integer 0, whose
    text is "0"; the cell written for it is not that text: the row has an
    empty fourth cell, and so does the exported document. *)
Theorem export_blanks_zero_review_count :
  forallb (populated zero_reviews) columns = true
  /\ field_value zero_reviews "reviewCount" = JInt 0
  /\ Csv.cell (JInt 0) = "0"
  /\ Csv.cell (written zero_reviews "reviewCount")
     <> Csv.cell (field_value zero_reviews "reviewCount")
  /\ rbind (lead_row (JObj zero_reviews)) (fun row => ok (map Csv.cell row))
     = ok ["Cafe Zero"; "1 Main St"; "4.5"; ""; "+1 555 0100";
           "https://cafe.example"; "abc"; "48.1"; "2.3"]
  /\ api_export_csv (JsonBody (JObj [("leads", JArr [JObj zero_reviews])]))
     = ok (Raw 200 csv_headers
             (encode_utf8
                (header_line
                 ++ "Cafe Zero,1 Main St,4.5,,+1 555 0100,https://cafe.example,abc,48.1,2.3"
                 ++ Csv.CRLF))).
Proof. repeat split; try reflexivity. intros H. discriminate H. Qed.

(** The document of a list of encodable records, and what a reader
    finds in it. *)
Lemma export_document (body : request_body)
    (records : list (list (string * json))) :
  get (request_data body) "leads" JNull = ok (JArr (map JObj records)) ->
  (forall r, In r records -> encodable r) ->
  api_export_csv body
  = ok (Raw 200 csv_headers
          (encode_utf8
             (header_line
              ++ lines (map (fun r => Csv.writerow (record_row r)) records))))
  /\ Csv.read (header_line
               ++ lines (map (fun r => Csv.writerow (record_row r)) records))
     = Some (header_cells
             :: map (fun r => map Csv.cell (record_row r)) records).
Proof.
  intros Hleads Henc.
  assert (Hdoc : header_line
                 ++ lines (map (fun r => Csv.writerow (record_row r)) records)
                 = joined (map Csv.writerow
                               (headers :: map record_row records)))
    by (cbn [map]; rewrite map_map; reflexivity).
  split.
  - unfold api_export_csv. rewrite Hleads. cbn [rbind ok].
    rewrite write_rows_records. cbn [rbind ok].
    change ("" ++ Csv.writerow headers) with header_line.
    rewrite encode_without_surrogate; [reflexivity|].
    rewrite Hdoc. apply has_surrogate_rows. constructor.
    + repeat constructor.
    + apply Forall_forall. intros row Hrow.
      apply in_map_iff in Hrow. destruct Hrow as (r & <- & Hr).
      apply Forall_forall. intros v Hv.
      apply in_map_iff in Hv. destruct Hv as (k & <- & Hk).
      exact (Henc r Hr k Hk).
  - rewrite Hdoc, read_written.
    + cbn [map]. rewrite map_map. reflexivity.
    + constructor; [exact I|].
      apply Forall_forall. intros row Hrow.
      apply in_map_iff in Hrow. destruct Hrow as (r & <- & _). exact I.
Qed.

Lemma rows_of_records (records : list (list (string * json))) :
  Forall2 row_of records (map (fun r => map Csv.cell (record_row r)) records).
Proof.
  induction records as [|r rs IH]; constructor; [|exact IH].
  split; [reflexivity|]. intros _. reflexivity.
Qed.

(** C7 (as amended).  When [leads] is a list of mappings none of whose
    cells holds a lone surrogate, the response is a CSV document in which
    a reader finds the fixed header row and then one row of nine cells
    per record, in the order of the list; the row of a record whose
    values are scalars is made of the cells written for it, whatever keys
    the record has or misses.  For the empty list the document is the
    header line alone. *)
Theorem export_one_row_per_record
    (body : request_body) (records : list (list (string * json))) :
  get (request_data body) "leads" JNull = ok (JArr (map JObj records)) ->
  (forall r, In r records -> encodable r) ->
  exists data rows,
    api_export_csv body = ok (Raw 200 csv_headers data)
    /\ Csv.read (decode_utf8 data) = Some (header_cells :: rows)
    /\ Forall2 row_of records rows
    /\ (records = [] -> decode_utf8 data = header_line).
Proof.
  intros Hleads Henc.
  destruct (export_document body records Hleads Henc) as [Hdoc Hread].
  exists (encode_utf8
            (header_line
             ++ lines (map (fun r => Csv.writerow (record_row r)) records))),
         (map (fun r => map Csv.cell (record_row r)) records).
  rewrite decode_encode. repeat split.
  - exact Hdoc.
  - exact Hread.
  - apply rows_of_records.
  - intros ->. reflexivity.
Qed.

Lemma export_one_row_per_record_witness :
  exists data rows,
    api_export_csv (JsonBody (JObj [("leads", JArr (map JObj three_records))]))
    = ok (Raw 200 csv_headers data)
    /\ Csv.read (decode_utf8 data) = Some (header_cells :: rows)
    /\ Forall2 row_of three_records rows
    /\ (three_records = [] -> decode_utf8 data = header_line).
Proof.
  apply (export_one_row_per_record
           (JsonBody (JObj [("leads", JArr (map JObj three_records))]))
           three_records eq_refl).
  intros r Hr k Hk. simpl in Hr, Hk.
  repeat (destruct Hr as [<-|Hr];
          [repeat (destruct Hk as [<-|Hk]; [reflexivity|]); destruct Hk|]).
  destruct Hr.
Defined.

(** What a reader finds in the document of [three_records]: the quoted
    name comes back with its comma and its quotes. *)
Lemma three_records_read_back :
  match api_export_csv
          (JsonBody (JObj [("leads", JArr (map JObj three_records))])) with
  | inr (Raw _ _ data) => Csv.read (decode_utf8 data)
  | _ => None
  end
  = Some [header_cells;
          ["B, " ++ String dquote ("Inc" ++ String dquote "");
           ""; ""; ""; ""; ""; "p2"; ""; ""];
          ["A"; ""; ""; ""; ""; ""; ""; ""; ""];
          ["B, " ++ String dquote ("Inc" ++ String dquote "");
           ""; ""; ""; ""; ""; "p2"; ""; ""]].
Proof. reflexivity. Qed.

(** C7 (counterexample).  A list of one mapping whose name is a lone
    surrogate: the encoding of the document raises, so the record gets no
    row and no document is returned. *)
Lemma export_lone_surrogate_no_document :
  api_export_csv
    (JsonBody (JObj [("leads", JArr [JObj [("name", JStr lone_surrogate)]])]))
  = raise (Exn UnicodeEncodeError
               "'utf-8' codec can't encode character '\ud800' in position 76: surrogates not allowed").
Proof. reflexivity. Qed.

(** C8.  When the [leads] entry of the request is anything but a list,
    also when it is missing, the response is the 400 error document
    "No leads provided" and no CSV is produced. *)
Theorem export_rejects_non_list (body : request_body) (leads : json) :
  get (request_data body) "leads" JNull = ok leads ->
  is_list leads = false ->
  api_export_csv body
  = ok (Jsonify 400 (JObj [("error", JStr "No leads provided")])).
Proof.
  intros Hget Hlist. unfold api_export_csv. rewrite Hget. cbn [rbind ok].
  destruct leads; try reflexivity. discriminate Hlist.
Qed.

Lemma export_rejects_non_list_witness :
  api_export_csv (JsonBody (JObj [("leads", JObj [("name", JStr "A")])]))
  = ok (Jsonify 400 (JObj [("error", JStr "No leads provided")])).
Proof.
  apply (@export_rejects_non_list
           (JsonBody (JObj [("leads", JObj [("name", JStr "A")])]))
           (JObj [("name", JStr "A")])); reflexivity.
Defined.

(** C9.  When [leads] is a list one of whose elements is not a mapping,
    the handler raises an [AttributeError] and returns no response, hence
    no CSV document. *)
Theorem export_raises_on_non_mapping
    (body : request_body) (items : list json) (x : json) :
  get (request_data body) "leads" JNull = ok (JArr items) ->
  In x items ->
  is_dict x = false ->
  exists e, api_export_csv body = raise e /\ exn_cls e = AttributeError.
Proof.
  intros Hget Hin Hx. unfold api_export_csv. rewrite Hget. cbn [rbind ok].
  destruct (write_rows_not_dict items ("" ++ Csv.writerow headers) x Hin Hx)
    as (e & He & Hcls).
  exists e. rewrite He. split; [reflexivity|exact Hcls].
Qed.

Lemma export_raises_on_non_mapping_witness :
  exists e,
    api_export_csv
      (JsonBody (JObj [("leads", JArr [JObj [("name", JStr "A")]; JStr "B"])]))
    = raise e /\ exn_cls e = AttributeError.
Proof.
  apply (@export_raises_on_non_mapping
           (JsonBody (JObj [("leads", JArr [JObj [("name", JStr "A")]; JStr "B"])]))
           [JObj [("name", JStr "A")]; JStr "B"] (JStr "B")).
  - reflexivity.
  - simpl. right. left. reflexivity.
  - reflexivity.
Defined.

End ExportProperties.

(* ================================================================== *)
(** * Properties of the search aggregator *)

Section SearchProperties.
Import Py Http Io Search Scenario.

(** *** Reading the request *)

Lemma truthy_str (s : string) : truthy (JStr s) = negb (String.eqb s "").
Proof. reflexivity. Qed.

Lemma reads_text_field (data : json) (k s : string) :
  reads data k s -> text_field data k = ok (strip s).
Proof.
  intros (v & Hget & Hor). unfold text_field. rewrite Hget. cbn [rbind ok].
  rewrite Hor. reflexivity.
Qed.

Lemma token_given_page_token_of (tok : string) :
  token_given (page_token_of tok) = negb (String.eqb (strip tok) "").
Proof.
  unfold page_token_of. rewrite truthy_str.
  destruct (String.eqb (strip tok) "") eqn:E; cbn [negb token_given].
  - reflexivity.
  - rewrite truthy_str, E. reflexivity.
Qed.

(** The handler after its three reads: the test, then the [try] block. *)
Lemma api_search_reads (body : request_body) (cat loc tok : string) :
  reads (request_data body) "category" cat ->
  reads (request_data body) "location" loc ->
  reads (request_data body) "pageToken" tok ->
  forall w log,
    api_search body w log
    = if rejected cat loc tok
      then (ok (error_response 400 "category and location are required"), log)
      else try_except (search_body (query_of cat loc) (page_token_of tok))
                      search_handler w log.
Proof.
  intros Hc Hl Ht w log. unfold api_search.
  rewrite (reads_text_field _ _ _ Hc), (reads_text_field _ _ _ Hl),
    (reads_text_field _ _ _ Ht).
  cbn [lift ok bind ret].
  fold (page_token_of tok). rewrite token_given_page_token_of.
  rewrite !truthy_str, !negb_involutive. fold (rejected cat loc tok).
  destruct (rejected cat loc tok); reflexivity.
Qed.

(** An entry that is true in a condition and is not a [str] has no
    [strip]: the handler raises before its test, outside the [try]. *)
Lemma text_field_not_text (fields : list (string * json)) (k : string)
    (v : json) :
  assoc k fields = Some v ->
  truthy v = true ->
  (forall s, v <> JStr s) ->
  text_field (JObj fields) k = raise (no_attribute v "strip").
Proof.
  intros Hk Ht Hs. unfold text_field, get. rewrite Hk. cbn [rbind ok].
  unfold por. rewrite Ht. destruct v; try reflexivity.
  exfalso. now apply (Hs s).
Qed.

Lemma api_search_category_not_text (fields : list (string * json)) (v : json)
    (w : env) (log : list event) :
  assoc "category" fields = Some v ->
  truthy v = true ->
  (forall s, v <> JStr s) ->
  api_search (JsonBody (JObj fields)) w log = (raise (no_attribute v "strip"), log).
Proof.
  intros Hk Ht Hs. unfold api_search, request_data, por.
  cbn [get_json_silent].
  assert (Hf : truthy (JObj fields) = true)
    by (destruct fields; [discriminate Hk|reflexivity]).
  rewrite Hf, (text_field_not_text _ _ _ Hk Ht Hs). reflexivity.
Qed.

(** *** The search call *)

(** Whatever the provider answers, the search logs its one call. *)
Lemma text_search_log (q : string) (pt : option string) (w : env)
    (log : list event) :
  snd (google_text_search_once q pt w log)
  = (log ++ [HttpGet textsearch_url (search_params (key_of w) q pt) 30])%list.
Proof.
  unfold google_text_search_once, bind, api_key, requests_get. fold (key_of w).
  destruct (upstream w log textsearch_url (search_params (key_of w) q pt))
    as [e|[e'|data]]; cbn [lift response_json ok raise throw ret snd];
    try reflexivity.
  destruct (get data "results" (JArr [])) as [e|results];
    cbn [lift throw ret snd]; try reflexivity.
  destruct (iter results) as [e|items]; cbn [lift throw ret snd]; try reflexivity.
  destruct (place_ids_of items) as [e|ids]; cbn [lift throw ret snd];
    try reflexivity.
  destruct (get data "next_page_token" JNull) as [e|next];
    cbn [lift throw ret snd]; reflexivity.
Qed.

(** An exception of [requests.get] leaves the search call by itself. *)
Lemma text_search_fails (q : string) (pt : option string) (w : env)
    (log : list event) (e : exn) :
  upstream w log textsearch_url (search_params (key_of w) q pt) = Fails e ->
  google_text_search_once q pt w log
  = (raise e,
     (log ++ [HttpGet textsearch_url (search_params (key_of w) q pt) 30])%list).
Proof.
  intros H. unfold google_text_search_once, bind, api_key, requests_get.
  fold (key_of w). rewrite H. reflexivity.
Qed.

(** A response whose results can be gone through gives the identifiers
    of the results that have one, and the value of its token entry. *)
Lemma text_search_responds (q : string) (pt : option string) (w : env)
    (log : list event) (fields : list (string * json)) (results : json)
    (items ids : list json) :
  upstream w log textsearch_url (search_params (key_of w) q pt)
  = Responds (ok (JObj fields)) ->
  get (JObj fields) "results" (JArr []) = ok results ->
  iter results = ok items ->
  place_ids_of items = ok ids ->
  google_text_search_once q pt w log
  = (ok (ids, next_page_token fields),
     (log ++ [HttpGet textsearch_url (search_params (key_of w) q pt) 30])%list).
Proof.
  intros Hup Hres Hiter Hids.
  unfold google_text_search_once, bind, api_key, requests_get.
  fold (key_of w). rewrite Hup. cbn [response_json lift ok ret].
  rewrite Hres. cbn [lift ok ret]. rewrite Hiter. cbn [lift ok ret].
  rewrite Hids. reflexivity.
Qed.

Lemma place_ids_of_length (items : list json) :
  forall ids, place_ids_of items = ok ids ->
              (List.length ids <= List.length items)%nat.
Proof.
  induction items as [|it rest IH]; intros ids H.
  - injection H as <-. apply le_n.
  - cbn [place_ids_of] in H.
    destruct (get it "place_id" JNull) as [e|c]; [discriminate H|].
    cbn [rbind] in H. destruct (truthy c).
    + destruct (place_ids_of rest) as [e|ids']; [discriminate H|].
      cbn [rbind ok] in H. injection H as <-. cbn [List.length].
      apply le_n_S. now apply IH.
    + cbn [List.length]. apply le_S. now apply IH.
Qed.

(** *** One details lookup *)

Lemma details_log (pid : json) (w : env) (log : list event) :
  snd (google_place_details pid w log) = (log ++ [details_call w pid])%list.
Proof.
  unfold google_place_details, bind, api_key, requests_get, details_call.
  fold (key_of w).
  destruct (upstream w log details_url _) as [e|[e'|dj]];
    cbn [lift response_json ok raise throw ret snd]; try reflexivity.
  destruct (get dj "result" JNull) as [e|p0];
    cbn [lift throw ret snd]; try reflexivity.
  destruct (negb (truthy p0)); [reflexivity|].
  destruct (lead_of p0); reflexivity.
Qed.

(** A response without a result, or with an empty one, is no lead and no
    failure. *)
Lemma details_no_result (pid : json) (w : env) (log : list event)
    (dj p0 : json) :
  upstream w log details_url
           [("place_id", pid); ("fields", JStr details_fields); ("key", key_of w)]
  = Responds (ok dj) ->
  get dj "result" JNull = ok p0 ->
  truthy p0 = false ->
  google_place_details pid w log = (ok None, (log ++ [details_call w pid])%list).
Proof.
  intros Hup Hget Hp. unfold google_place_details, bind, api_key, requests_get.
  fold (key_of w). rewrite Hup. cbn [response_json lift ok ret].
  rewrite Hget. cbn [lift ok ret]. rewrite Hp. reflexivity.
Qed.

(** An exception of [requests.get] leaves the details lookup by itself. *)
Lemma details_fails (pid : json) (w : env) (log : list event) (e : exn) :
  upstream w log details_url
           [("place_id", pid); ("fields", JStr details_fields); ("key", key_of w)]
  = Fails e ->
  google_place_details pid w log = (raise e, (log ++ [details_call w pid])%list).
Proof.
  intros Hup. unfold google_place_details, bind, api_key, requests_get.
  fold (key_of w). rewrite Hup. reflexivity.
Qed.

(** *** The loop over the identifiers *)

(** The loop with its accumulator is the sequence of lookups followed by
    the selection of the leads that were found. *)
Lemma details_loop_lookups (ids : list json) :
  forall acc w log,
    details_loop acc ids w log
    = match lookups ids w log with
      | (inl e, log') => (inl e, log')
      | (inr os, log') => (inr (acc ++ found os)%list, log')
      end.
Proof.
  induction ids as [|pid rest IH]; intros acc w log.
  - cbn [details_loop lookups ret found]. now rewrite app_nil_r.
  - cbn [details_loop lookups]. unfold bind, sleep, ret.
    destruct (google_place_details pid w log) as [[e|o] log1]; [reflexivity|].
    rewrite IH.
    destruct (lookups rest w (log1 ++ [Sleep "0.08"])%list) as [[e|os] log2];
      [reflexivity|].
    destruct o as [l|]; cbn [found]; [|reflexivity].
    now rewrite <- app_assoc.
Qed.

Lemma lookups_length (ids : list json) :
  forall w log os log',
    lookups ids w log = (ok os, log') -> List.length os = List.length ids.
Proof.
  induction ids as [|pid rest IH]; intros w log os log' H.
  - injection H as <- _. reflexivity.
  - cbn [lookups] in H. unfold bind, sleep, ret in H.
    destruct (google_place_details pid w log) as [[e|o] log1]; [discriminate H|].
    destruct (lookups rest w (log1 ++ [Sleep "0.08"])%list) as [[e|os'] log2] eqn:E;
      [discriminate H|].
    injection H as <- _. cbn [List.length]. f_equal.
    eapply IH; eassumption.
Qed.

(** Each outcome is what the lookup of the identifier at the same place
    returned. *)
Lemma lookups_aligned (ids : list json) :
  forall w log os log',
    lookups ids w log = (ok os, log') ->
    Forall2 (fun pid o => exists l l', google_place_details pid w l = (ok o, l'))
            ids os.
Proof.
  induction ids as [|pid rest IH]; intros w log os log' H.
  - injection H as <- _. constructor.
  - cbn [lookups] in H. unfold bind, sleep, ret in H.
    destruct (google_place_details pid w log) as [[e|o] log1] eqn:D;
      [discriminate H|].
    destruct (lookups rest w (log1 ++ [Sleep "0.08"])%list) as [[e|os'] log2] eqn:E;
      [discriminate H|].
    injection H as <- _. constructor.
    + exists log, log1. exact D.
    + eapply IH; eassumption.
Qed.

Lemma found_length (os : list (option Lead)) :
  (List.length (found os) <= List.length os)%nat.
Proof.
  induction os as [|[l|] os IH]; cbn [found List.length].
  - apply le_n.
  - now apply le_n_S.
  - now apply le_S.
Qed.

(** The lookups of a list cut in two. *)
Lemma lookups_app (a b : list json) :
  forall w log,
    lookups (a ++ b) w log
    = match lookups a w log with
      | (inl e, log1) => (inl e, log1)
      | (inr os, log1) =>
          match lookups b w log1 with
          | (inl e, log2) => (inl e, log2)
          | (inr os', log2) => (inr (os ++ os')%list, log2)
          end
      end.
Proof.
  induction a as [|pid rest IH]; intros w log.
  - cbn [app lookups ret]. destruct (lookups b w log) as [[e|os] l]; reflexivity.
  - cbn [app lookups]. unfold bind, sleep, ret.
    destruct (google_place_details pid w log) as [[e|o] log1]; [reflexivity|].
    rewrite IH.
    destruct (lookups rest w (log1 ++ [Sleep "0.08"])%list) as [[e|os] log2];
      [reflexivity|].
    destruct (lookups b w log2) as [[e|os'] log3]; reflexivity.
Qed.

(** The loop only logs details calls and pauses. *)
Lemma lookups_log (ids : list json) :
  forall w log,
    exists rest, snd (lookups ids w log) = (log ++ rest)%list
                 /\ Forall after_search rest.
Proof.
  induction ids as [|pid ids IH]; intros w log.
  - exists []. cbn [lookups ret snd]. rewrite app_nil_r. split; constructor.
  - cbn [lookups]. unfold bind, sleep, ret.
    pose proof (details_log pid w log) as D.
    destruct (google_place_details pid w log) as [[e|o] log1]; cbn [snd] in D;
      subst log1.
    + exists [details_call w pid]. split; [reflexivity|].
      constructor; [reflexivity|constructor].
    + destruct (IH w ((log ++ [details_call w pid]) ++ [Sleep "0.08"])%list)
        as (rest & Hrest & Hall).
      exists (details_call w pid :: Sleep "0.08" :: rest).
      split.
      * destruct (lookups ids w _) as [[e|os] log2]; cbn [snd] in *;
          rewrite Hrest, <- !app_assoc; reflexivity.
      * constructor; [reflexivity|]. constructor; [exact I|exact Hall].
Qed.

(** *** The [try] block and its handlers *)

Lemma search_body_returns (q : string) (pt : option string) (w : env)
    (log log1 log2 : list event) (ids : list json) (next : json)
    (os : list (option Lead)) :
  google_text_search_once q pt w log = (ok (ids, next), log1) ->
  lookups ids w log1 = (ok os, log2) ->
  search_body q pt w log
  = (ok (Jsonify 200 (JObj [("leads", JArr (map asdict (found os)));
                            ("nextPageToken", por next (JStr ""))])), log2).
Proof.
  intros Hs Hl. unfold search_body, bind. rewrite Hs. cbv beta iota delta [ok].
  rewrite details_loop_lookups, Hl. reflexivity.
Qed.

Lemma search_body_raises (q : string) (pt : option string) (w : env)
    (log log1 log2 : list event) (ids : list json) (next : json) (e : exn) :
  google_text_search_once q pt w log = (ok (ids, next), log1) ->
  lookups ids w log1 = (raise e, log2) ->
  search_body q pt w log = (raise e, log2).
Proof.
  intros Hs Hl. unfold search_body, bind. rewrite Hs. cbv beta iota delta [ok].
  rewrite details_loop_lookups, Hl. reflexivity.
Qed.

(** The status of what the [try] statement returns. *)
Lemma search_try_status (q : string) (pt : option string) (w : env)
    (log : list event) :
  exists status payload log',
    try_except (search_body q pt) search_handler w log
    = (ok (Jsonify status payload), log')
    /\ (status = 200 \/ status = 502 \/ status = 500)%Z.
Proof.
  unfold try_except.
  destruct (search_body q pt w log) as [[e|r] log'] eqn:E.
  - unfold search_handler, error_response. destruct (is_HTTPError e).
    + exists 502%Z, (JObj [("error", JStr ("HTTP error: " ++ str_exn e))]), log'.
      split; [reflexivity|]. right; left; reflexivity.
    + exists 500%Z, (JObj [("error", JStr (str_exn e))]), log'.
      split; [reflexivity|]. right; right; reflexivity.
  - unfold search_body, bind in E.
    destruct (google_text_search_once q pt w log) as [[e|[ids next]] log1];
      [discriminate E|].
    destruct (details_loop [] ids w log1) as [[e|leads] log2];
      [discriminate E|].
    injection E as <- <-. 
    exists 200%Z,
      (JObj [("leads", JArr (map asdict leads));
             ("nextPageToken", por next (JStr ""))]), log2.
    split; [reflexivity|]. left; reflexivity.
Qed.

(** The events of the [try] statement: the search call, then details
    calls and pauses. *)
Lemma search_try_log (q : string) (pt : option string) (w : env)
    (log : list event) :
  exists rest,
    snd (try_except (search_body q pt) search_handler w log)
    = (log ++ HttpGet textsearch_url (search_params (key_of w) q pt) 30 :: rest)%list
    /\ Forall after_search rest.
Proof.
  unfold try_except, search_body, bind.
  pose proof (text_search_log q pt w log) as S.
  destruct (google_text_search_once q pt w log) as [[e|[ids next]] log1];
    cbn [snd] in S; subst log1.
  - exists []. split; [|constructor].
    unfold search_handler. destruct (is_HTTPError e); reflexivity.
  - rewrite details_loop_lookups.
    destruct (lookups_log ids w
                (log ++ [HttpGet textsearch_url (search_params (key_of w) q pt) 30])%list)
      as (rest & Hrest & Hall).
    exists rest. split; [|exact Hall].
    destruct (lookups ids w _) as [[e|os] log2]; cbn [snd] in Hrest; subst log2.
    + unfold search_handler.
      destruct (is_HTTPError e); cbn [ret snd]; now rewrite <- app_assoc.
    + cbn [ret snd]. now rewrite <- app_assoc.
Qed.

Lemma search_params_fresh (k : json) (q tok : string) :
  strip tok = "" ->
  search_params k q (page_token_of tok) = [("key", k); ("query", JStr q)].
Proof. intros H. unfold page_token_of. rewrite H. reflexivity. Qed.

Lemma search_params_token (k : json) (q tok : string) :
  strip tok <> "" ->
  search_params k q (page_token_of tok)
  = [("key", k); ("pagetoken", JStr (strip tok))].
Proof.
  intros H. unfold page_token_of. rewrite truthy_str.
  destruct (String.eqb_spec (strip tok) "") as [E|E]; [contradiction|].
  cbn [negb search_params]. rewrite truthy_str.
  destruct (String.eqb_spec (strip tok) "") as [E'|E']; [contradiction|].
  reflexivity.
Qed.

Lemma rejected_iff (cat loc tok : string) :
  rejected cat loc tok = true
  <-> strip tok = "" /\ (strip cat = "" \/ strip loc = "").
Proof.
  unfold rejected. rewrite andb_true_iff, orb_true_iff, !String.eqb_eq. tauto.
Qed.

(** An exception of the search call is answered by the handlers: 502 for
    a [requests.HTTPError], 500 for any other class, and nothing else was
    called. *)
Lemma search_call_failure (w : env) (log : list event) (body : request_body)
    (cat loc tok : string) (e : exn) :
  reads (request_data body) "category" cat ->
  reads (request_data body) "location" loc ->
  reads (request_data body) "pageToken" tok ->
  rejected cat loc tok = false ->
  upstream w log textsearch_url
           (search_params (key_of w) (query_of cat loc) (page_token_of tok))
  = Fails e ->
  api_search body w log
  = (ok (if is_HTTPError e
         then error_response 502 ("HTTP error: " ++ str_exn e)
         else error_response 500 (str_exn e)),
     (log ++ [search_call w cat loc tok])%list).
Proof.
  intros Hc Hl Ht Hr Hup. rewrite (api_search_reads _ _ _ _ Hc Hl Ht), Hr.
  unfold try_except, search_body, bind. rewrite (text_search_fails _ _ _ _ _ Hup).
  unfold search_handler, raise. destruct (is_HTTPError e); reflexivity.
Qed.

(** *** The properties of the specification *)

(** C1 (evaluation at the failing input).  The search call of a valid
    request times out: [requests.Timeout] is not a [requests.HTTPError],
    so the answer is the 500 document carrying the text of the exception;
    no lead is returned and the search call is the only call made. *)
Theorem search_timeout_answers_500 :
  exn_cls read_timeout = Timeout
  /\ is_HTTPError read_timeout = false
  /\ api_search cafes_in_paris search_times_out []
     = (ok (Jsonify 500 (JObj [("error", JStr (str_exn read_timeout))])),
        [HttpGet textsearch_url
                 [("key", JStr "secret"); ("query", JStr "cafe in Paris")] 30]).
Proof. repeat split; reflexivity. Qed.

(** C3.  When the request is accepted, the search response is an object
    whose results are [items] (none when it has no such entry), the
    identifiers of the results that have one are [ids], and the lookups of
    the identifiers, taken in order,
    return [outcomes] (a lead, or nothing where the provider has no
    result), the answer is the 200 document whose leads are the leads
    among the outcomes, in that order, and whose token is the token entry
    of the search response, or the empty text when the response has none.
    There are no more leads than identifiers, no more identifiers than
    results, and each outcome is the lookup of the identifier at the same
    place. *)
Theorem search_returns_found_leads_in_order
    (w : env) (log : list event) (body : request_body) (cat loc tok : string)
    (fields : list (string * json)) (results : json) (items ids : list json)
    (outcomes : list (option Lead)) (log' : list event) :
  reads (request_data body) "category" cat ->
  reads (request_data body) "location" loc ->
  reads (request_data body) "pageToken" tok ->
  rejected cat loc tok = false ->
  upstream w log textsearch_url
           (search_params (key_of w) (query_of cat loc) (page_token_of tok))
  = Responds (ok (JObj fields)) ->
  get (JObj fields) "results" (JArr []) = ok results ->
  iter results = ok items ->
  place_ids_of items = ok ids ->
  lookups ids w (log ++ [search_call w cat loc tok])%list = (ok outcomes, log') ->
  api_search body w log
  = (ok (Jsonify 200
           (JObj [("leads", JArr (map asdict (found outcomes)));
                  ("nextPageToken", por (next_page_token fields) (JStr ""))])),
     log')
  /\ (List.length (found outcomes) <= List.length ids)%nat
  /\ (List.length ids <= List.length items)%nat
  /\ Forall2 (fun pid o =>
                exists l l', google_place_details pid w l = (ok o, l'))
             ids outcomes
  /\ (forall s, assoc "next_page_token" fields = Some (JStr s) ->
                por (next_page_token fields) (JStr "") = JStr s)
  /\ (assoc "next_page_token" fields = None ->
      por (next_page_token fields) (JStr "") = JStr "").
Proof.
  intros Hc Hl Ht Hr Hup Hres Hiter Hids Hlook.
  pose proof (text_search_responds _ _ _ _ _ _ _ _ Hup Hres Hiter Hids) as Hs.
  repeat split.
  - rewrite (api_search_reads _ _ _ _ Hc Hl Ht), Hr. unfold try_except.
    rewrite (search_body_returns _ _ _ _ _ _ _ _ _ Hs Hlook). reflexivity.
  - rewrite <- (lookups_length _ _ _ _ _ Hlook). apply found_length.
  - now apply place_ids_of_length.
  - eapply lookups_aligned; eassumption.
  - intros s' H. unfold next_page_token, por. rewrite H, truthy_str.
    destruct (String.eqb_spec s' "") as [->|_]; reflexivity.
  - intros H. unfold next_page_token. rewrite H. reflexivity.
Qed.

Lemma search_returns_found_leads_in_order_witness :
  api_search cafes_in_paris second_unknown []
  = (ok (Jsonify 200
           (JObj [("leads", JArr [asdict (lead "id1" "One");
                                  asdict (lead "id3" "Three")]);
                  ("nextPageToken", JStr "")])),
     [search_call second_unknown "cafe" " Paris " "";
      details_call second_unknown (JStr "id1"); Sleep "0.08";
      details_call second_unknown (JStr "id2"); Sleep "0.08";
      details_call second_unknown (JStr "id3"); Sleep "0.08"]).
Proof.
  refine (proj1 (search_returns_found_leads_in_order
                   second_unknown [] cafes_in_paris "cafe" " Paris " ""
                   [("results", JArr [JObj [("place_id", JStr "id1")];
                                      JObj [("place_id", JStr "id2")];
                                      JObj [("place_id", JStr "id3")]])]
                   (JArr [JObj [("place_id", JStr "id1")];
                          JObj [("place_id", JStr "id2")];
                          JObj [("place_id", JStr "id3")]])
                   [JObj [("place_id", JStr "id1")];
                    JObj [("place_id", JStr "id2")];
                    JObj [("place_id", JStr "id3")]]
                   [JStr "id1"; JStr "id2"; JStr "id3"]
                   [Some (lead "id1" "One"); None; Some (lead "id3" "Three")]
                   _ _ _ _ _ _ _ _ _ _)).
  - exists (JStr "cafe"). split; reflexivity.
  - exists (JStr " Paris "). split; reflexivity.
  - exists JNull. split; reflexivity.
  - reflexivity.
  - reflexivity.
  - reflexivity.
  - reflexivity.
  - reflexivity.
  - reflexivity.
Defined.

(** C4.  For a request whose category, location and page token read as
    the texts [cat], [loc] and [tok], the answer is a 400 document with
    nothing called if and only if the token is empty once trimmed and the
    category or the location is empty once trimmed; the document is then
    the one of the handler. *)
Theorem search_rejects_iff_nothing_to_search
    (w : env) (log : list event) (body : request_body) (cat loc tok : string) :
  reads (request_data body) "category" cat ->
  reads (request_data body) "location" loc ->
  reads (request_data body) "pageToken" tok ->
  (((exists payload, fst (api_search body w log) = ok (Jsonify 400 payload))
    /\ snd (api_search body w log) = log)
   <-> (strip tok = "" /\ (strip cat = "" \/ strip loc = "")))
  /\ (strip tok = "" /\ (strip cat = "" \/ strip loc = "") ->
      api_search body w log
      = (ok (error_response 400 "category and location are required"), log)).
Proof.
  intros Hc Hl Ht.
  pose proof (api_search_reads _ _ _ _ Hc Hl Ht w log) as Hrun.
  pose proof (rejected_iff cat loc tok) as Hrej.
  destruct (rejected cat loc tok) eqn:R.
  - assert (Hcond : strip tok = "" /\ (strip cat = "" \/ strip loc = ""))
      by (apply Hrej; reflexivity).
    split; [split|]; intros; try exact Hcond; try exact Hrun.
    rewrite Hrun. split; [|reflexivity].
    eexists. reflexivity.
  - split.
    + split.
      * intros [(payload & Hst) _]. exfalso.
        destruct (search_try_status (query_of cat loc) (page_token_of tok) w log)
          as (status & payload' & log' & Heq & Hstatus).
        rewrite Hrun, Heq in Hst. cbn [fst] in Hst. injection Hst as Hs _.
        subst status. destruct Hstatus as [H|[H|H]]; discriminate H.
      * intros Hcond. apply Hrej in Hcond. discriminate Hcond.
    + intros Hcond. apply Hrej in Hcond. discriminate Hcond.
Qed.

Lemma search_rejects_iff_nothing_to_search_witness :
  api_search blank_request second_unknown []
  = (ok (error_response 400 "category and location are required"), []).
Proof.
  refine (proj2 (search_rejects_iff_nothing_to_search
                   second_unknown [] blank_request "   " "Paris" " " _ _ _) _).
  - exists (JStr "   "). split; reflexivity.
  - exists (JStr "Paris"). split; reflexivity.
  - exists (JStr " "). split; reflexivity.
  - split; [reflexivity|left; reflexivity].
Defined.

(** C5.  The first event of an accepted request is its one call to the
    search endpoint.  Without a token its parameters are the credential
    and the query made of the trimmed category, " in " and the trimmed
    location; with a token they are the credential and the trimmed token.
    What follows is made of details calls and pauses. *)
Theorem search_sends_query_or_token
    (w : env) (log : list event) (body : request_body) (cat loc tok : string) :
  reads (request_data body) "category" cat ->
  reads (request_data body) "location" loc ->
  reads (request_data body) "pageToken" tok ->
  (strip tok = "" -> strip cat <> "" -> strip loc <> "" ->
   exists rest,
     snd (api_search body w log)
     = (log ++ HttpGet textsearch_url
                       [("key", key_of w);
                        ("query", JStr (strip cat ++ " in " ++ strip loc))] 30
            :: rest)%list
     /\ Forall after_search rest)
  /\ (strip tok <> "" ->
      exists rest,
        snd (api_search body w log)
        = (log ++ HttpGet textsearch_url
                          [("key", key_of w); ("pagetoken", JStr (strip tok))] 30
               :: rest)%list
        /\ Forall after_search rest).
Proof.
  intros Hc Hl Ht.
  pose proof (api_search_reads _ _ _ _ Hc Hl Ht w log) as Hrun.
  pose proof (rejected_iff cat loc tok) as Hrej.
  destruct (search_try_log (query_of cat loc) (page_token_of tok) w log)
    as (rest & Hlog & Hall).
  split.
  - intros Htok Hcat Hloc.
    destruct (rejected cat loc tok).
    + exfalso. destruct (proj1 Hrej eq_refl) as [_ [H|H]]; contradiction.
    + exists rest. rewrite Hrun, Hlog.
      rewrite (search_params_fresh _ _ _ Htok). split; [reflexivity|exact Hall].
  - intros Htok.
    destruct (rejected cat loc tok).
    + exfalso. destruct (proj1 Hrej eq_refl) as [H _]; contradiction.
    + exists rest. rewrite Hrun, Hlog.
      rewrite (search_params_token _ _ _ Htok). split; [reflexivity|exact Hall].
Qed.

Lemma search_sends_query_or_token_witness :
  (exists rest,
     snd (api_search cafes_in_paris second_unknown [])
     = HttpGet textsearch_url
               [("key", JStr "secret"); ("query", JStr "cafe in Paris")] 30
       :: rest
     /\ Forall after_search rest)
  /\ (exists rest,
        snd (api_search next_page second_unknown [])
        = HttpGet textsearch_url
                  [("key", JStr "secret"); ("pagetoken", JStr "tok123")] 30
          :: rest
        /\ Forall after_search rest).
Proof.
  split.
  - refine (proj1 (search_sends_query_or_token
                     second_unknown [] cafes_in_paris "cafe" " Paris " "" _ _ _)
                  _ _ _).
    + exists (JStr "cafe"). split; reflexivity.
    + exists (JStr " Paris "). split; reflexivity.
    + exists JNull. split; reflexivity.
    + reflexivity.
    + vm_compute. discriminate.
    + vm_compute. discriminate.
  - refine (proj2 (search_sends_query_or_token
                     second_unknown [] next_page "" "" "tok123" _ _ _) _).
    + exists JNull. split; reflexivity.
    + exists JNull. split; reflexivity.
    + exists (JStr "tok123"). split; reflexivity.
    + vm_compute. discriminate.
Defined.

(** C6.  When the search call has returned identifiers, the lookups of
    the first of them have returned, and the lookup of the next one
    raises, the answer is an error document alone, 502 or 500 according
    to the class of the exception: the leads already found are not
    returned. *)
Theorem search_fails_as_a_whole
    (w : env) (log log1 log2 log3 : list event) (body : request_body)
    (cat loc tok : string) (pre post : list json) (pid next : json)
    (outcomes : list (option Lead)) (e : exn) :
  reads (request_data body) "category" cat ->
  reads (request_data body) "location" loc ->
  reads (request_data body) "pageToken" tok ->
  rejected cat loc tok = false ->
  google_text_search_once (query_of cat loc) (page_token_of tok) w log
  = (ok ((pre ++ pid :: post)%list, next), log1) ->
  lookups pre w log1 = (ok outcomes, log2) ->
  google_place_details pid w log2 = (raise e, log3) ->
  api_search body w log
  = (ok (Jsonify (if is_HTTPError e then 502 else 500)
           (JObj [("error",
                   JStr (if is_HTTPError e then "HTTP error: " ++ str_exn e
                         else str_exn e))])),
     log3).
Proof.
  intros Hc Hl Ht Hr Hs Hpre Hpid.
  rewrite (api_search_reads _ _ _ _ Hc Hl Ht), Hr. unfold try_except.
  assert (Hloop : lookups (pre ++ pid :: post) w log1 = (raise e, log3)).
  { rewrite lookups_app, Hpre. cbv beta iota delta [ok].
    cbn [lookups]. unfold bind. rewrite Hpid. reflexivity. }
  rewrite (search_body_raises _ _ _ _ _ _ _ _ _ Hs Hloop).
  unfold raise, search_handler, error_response.
  destruct (is_HTTPError e); reflexivity.
Qed.

Lemma search_fails_as_a_whole_witness :
  api_search cafes_in_paris second_times_out []
  = (ok (Jsonify 500 (JObj [("error", JStr (str_exn read_timeout))])),
     [search_call second_times_out "cafe" " Paris " "";
      details_call second_times_out (JStr "id1"); Sleep "0.08";
      details_call second_times_out (JStr "id2")]).
Proof.
  refine (search_fails_as_a_whole
            second_times_out []
            [search_call second_times_out "cafe" " Paris " ""]
            [search_call second_times_out "cafe" " Paris " "";
             details_call second_times_out (JStr "id1"); Sleep "0.08"]
            _ cafes_in_paris "cafe" " Paris " ""
            [JStr "id1"] [JStr "id3"] (JStr "id2") JNull
            [Some (lead "id1" "One")] read_timeout _ _ _ _ _ _ _).
  - exists (JStr "cafe"). split; reflexivity.
  - exists (JStr " Paris "). split; reflexivity.
  - exists JNull. split; reflexivity.
  - reflexivity.
  - reflexivity.
  - reflexivity.
  - reflexivity.
Defined.

(** C10.  A request without a body, or whose body is not JSON, is read as
    the empty object: the search answers its 400 document without calling
    anything, and the export answers its 400 document. *)
Theorem unparsed_body_is_rejected (body : request_body) :
  body = NoBody \/ (exists raw, body = InvalidJson raw) ->
  request_data body = JObj []
  /\ (forall w log,
        api_search body w log
        = (ok (Jsonify 400
                 (JObj [("error", JStr "category and location are required")])),
           log))
  /\ CsvExport.api_export_csv body
     = ok (Jsonify 400 (JObj [("error", JStr "No leads provided")])).
Proof.
  intros [->|(raw & ->)]; repeat split; reflexivity.
Qed.

Lemma unparsed_body_is_rejected_witness :
  api_search (InvalidJson "{category: cafe") second_unknown []
  = (ok (Jsonify 400
           (JObj [("error", JStr "category and location are required")])),
     [])
  /\ CsvExport.api_export_csv (InvalidJson "{category: cafe")
     = ok (Jsonify 400 (JObj [("error", JStr "No leads provided")])).
Proof.
  destruct (unparsed_body_is_rejected
              (InvalidJson "{category: cafe")
              (or_intror (ex_intro _ "{category: cafe" eq_refl)))
    as (_ & Hsearch & Hexport).
  split; [apply Hsearch|exact Hexport].
Defined.

End SearchProperties.

(* ================================================================== *)
(** * Further properties of the handlers *)

Section FurtherProperties.
Import Py Http Io Search Scenario Shapes CsvExport.

(** *** Helpers *)

Lemma lookups_trace (ids : list json) :
  forall w log os log',
    lookups ids w log = (ok os, log') ->
    log' = (log ++ lookup_events w ids)%list.
Proof.
  induction ids as [|pid rest IH]; intros w log os log' H.
  - injection H as _ <-. cbn [lookup_events flat_map]. now rewrite app_nil_r.
  - cbn [lookups] in H. unfold bind, sleep, ret in H.
    pose proof (details_log pid w log) as D.
    destruct (google_place_details pid w log) as [[e|o] log1];
      [discriminate H|].
    cbn [snd] in D. subst log1.
    destruct (lookups rest w _) as [[e|os'] log2] eqn:E; [discriminate H|].
    injection H as _ <-. apply IH in E. subst log2.
    cbn [lookup_events flat_map]. fold (lookup_events w rest).
    rewrite <- !app_assoc. reflexivity.
Qed.

(** An exception that leaves the search step is answered by the
    handlers, with the log of the search step. *)
Lemma search_try_search_raises (q : string) (pt : option string) (w : env)
    (log log1 : list event) (e : exn) :
  google_text_search_once q pt w log = (raise e, log1) ->
  try_except (search_body q pt) search_handler w log = (ok (answer_to e), log1).
Proof.
  intros H. unfold try_except, search_body, bind. rewrite H.
  unfold raise, search_handler, answer_to. destruct (is_HTTPError e); reflexivity.
Qed.

(** The same for an exception that leaves the loop. *)
Lemma search_try_loop_raises (q : string) (pt : option string) (w : env)
    (log log1 log2 : list event) (ids : list json) (next : json) (e : exn) :
  google_text_search_once q pt w log = (ok (ids, next), log1) ->
  lookups ids w log1 = (raise e, log2) ->
  try_except (search_body q pt) search_handler w log = (ok (answer_to e), log2).
Proof.
  intros Hs Hl. unfold try_except.
  rewrite (search_body_raises _ _ _ _ _ _ _ _ _ Hs Hl).
  unfold raise, search_handler, answer_to. destruct (is_HTTPError e); reflexivity.
Qed.

Lemma answer_to_error (e : exn) :
  exists status msg,
    answer_to e = Jsonify status (JObj [("error", JStr msg)])
    /\ (status = 502 \/ status = 500)%Z.
Proof.
  unfold answer_to, error_response. destruct (is_HTTPError e).
  - exists 502%Z, ("HTTP error: " ++ str_exn e). split; [reflexivity|now left].
  - exists 500%Z, (str_exn e). split; [reflexivity|now right].
Qed.

(** What the [try] statement returns: the 200 document of the leads that
    were found, or the answer to an exception. *)
Lemma search_try_cases (q : string) (pt : option string) (w : env)
    (log : list event) :
  (exists ls next log',
      try_except (search_body q pt) search_handler w log
      = (ok (Jsonify 200 (JObj [("leads", JArr (map asdict ls));
                                ("nextPageToken", por next (JStr ""))])), log'))
  \/ (exists e log',
         try_except (search_body q pt) search_handler w log
         = (ok (answer_to e), log')).
Proof.
  unfold try_except.
  destruct (search_body q pt w log) as [[e|r] log'] eqn:E.
  - right. exists e, log'. unfold search_handler, answer_to.
    destruct (is_HTTPError e); reflexivity.
  - left. unfold search_body, bind in E.
    destruct (google_text_search_once q pt w log) as [[e|[ids next]] log1];
      [discriminate E|].
    destruct (details_loop [] ids w log1) as [[e|leads] log2];
      [discriminate E|].
    injection E as <- <-. exists leads, next, log2. reflexivity.
Qed.

(** What the search step does with a decoded response. *)
Lemma text_search_decoded (q : string) (pt : option string) (w : env)
    (log : list event) (data : json) :
  upstream w log textsearch_url (search_params (key_of w) q pt)
  = Responds (ok data) ->
  google_text_search_once q pt w log
  = (rbind (get data "results" (JArr [])) (fun results =>
     rbind (iter results) (fun items =>
     rbind (place_ids_of items) (fun ids =>
     rbind (get data "next_page_token" JNull) (fun next =>
     ok (ids, next))))),
     (log ++ [HttpGet textsearch_url (search_params (key_of w) q pt) 30])%list).
Proof.
  intros Hup. unfold google_text_search_once, bind, api_key, requests_get.
  fold (key_of w). rewrite Hup. cbn [response_json lift ok ret].
  destruct (get data "results" (JArr [])) as [e|results];
    cbn [lift throw ret rbind]; [reflexivity|].
  destruct (iter results) as [e|items]; cbn [lift throw ret rbind];
    [reflexivity|].
  destruct (place_ids_of items) as [e|ids]; cbn [lift throw ret rbind];
    [reflexivity|].
  destruct (get data "next_page_token" JNull) as [e|next];
    cbn [lift throw ret rbind]; reflexivity.
Qed.

(** *** The answers of the search handler *)

(** X1.  For a request whose three entries read as text, no exception
    leaves the handler: it returns a JSON document with status 200, 400,
    500 or 502, and a document whose status is not 200 holds an error
    message and nothing else. *)
Theorem api_search_always_answers
    (w : env) (log : list event) (body : request_body) (cat loc tok : string) :
  reads (request_data body) "category" cat ->
  reads (request_data body) "location" loc ->
  reads (request_data body) "pageToken" tok ->
  exists status payload log',
    api_search body w log = (ok (Jsonify status payload), log')
    /\ (status = 200 \/ status = 400 \/ status = 500 \/ status = 502)%Z
    /\ (status <> 200%Z -> exists msg, payload = JObj [("error", JStr msg)]).
Proof.
  intros Hc Hl Ht. rewrite (api_search_reads _ _ _ _ Hc Hl Ht).
  destruct (rejected cat loc tok).
  - exists 400%Z, (JObj [("error", JStr "category and location are required")]), log.
    split; [reflexivity|]. split; [now right; left|].
    intros _. eexists. reflexivity.
  - destruct (search_try_cases (query_of cat loc) (page_token_of tok) w log)
      as [(ls & next & log' & H)|(e & log' & H)]; rewrite H.
    + eexists _, _, _. split; [reflexivity|]. split; [now left|].
      intros Hne. now contradiction Hne.
    + destruct (answer_to_error e) as (status & msg & Ha & Hs). rewrite Ha.
      exists status, (JObj [("error", JStr msg)]), log'.
      split; [reflexivity|]. split.
      * destruct Hs as [->| ->]; [now right; right; right|now right; right; left].
      * intros _. exists msg. reflexivity.
Qed.

Lemma api_search_always_answers_witness :
  exists status payload log',
    api_search cafes_in_paris second_times_out []
    = (ok (Jsonify status payload), log')
    /\ (status = 200 \/ status = 400 \/ status = 500 \/ status = 502)%Z
    /\ (status <> 200%Z -> exists msg, payload = JObj [("error", JStr msg)]).
Proof.
  apply (api_search_always_answers
           second_times_out [] cafes_in_paris "cafe" " Paris " "").
  - exists (JStr "cafe"). split; reflexivity.
  - exists (JStr " Paris "). split; reflexivity.
  - exists JNull. split; reflexivity.
Defined.

(** X2.  When an accepted request is answered 200, the handler has made
    its search call and then, for each identifier the search returned, in
    order, one details call followed by one pause of 0.08 s; nothing else
    is called. *)
Theorem search_success_trace
    (w : env) (log log1 : list event) (body : request_body)
    (cat loc tok : string) (ids : list json) (next payload : json) :
  reads (request_data body) "category" cat ->
  reads (request_data body) "location" loc ->
  reads (request_data body) "pageToken" tok ->
  rejected cat loc tok = false ->
  google_text_search_once (query_of cat loc) (page_token_of tok) w log
  = (ok (ids, next), log1) ->
  fst (api_search body w log) = ok (Jsonify 200 payload) ->
  snd (api_search body w log)
  = (log ++ search_call w cat loc tok :: lookup_events w ids)%list.
Proof.
  intros Hc Hl Ht Hr Hs H200.
  rewrite (api_search_reads _ _ _ _ Hc Hl Ht), Hr in *.
  pose proof (text_search_log (query_of cat loc) (page_token_of tok) w log) as L1.
  rewrite Hs in L1. cbn [snd] in L1.
  destruct (lookups ids w log1) as [[e|os] log2] eqn:L.
  - rewrite (search_try_loop_raises _ _ _ _ _ _ _ _ _ Hs L) in H200.
    cbn [fst] in H200. destruct (answer_to_error e) as (st & msg & Ha & Hst).
    rewrite Ha in H200. injection H200 as Hst' _. subst st.
    destruct Hst as [H|H]; discriminate H.
  - unfold try_except. rewrite (search_body_returns _ _ _ _ _ _ _ _ _ Hs L).
    cbn [snd]. rewrite (lookups_trace _ _ _ _ _ L), L1.
    rewrite <- app_assoc. reflexivity.
Qed.

Lemma search_success_trace_witness :
  snd (api_search cafes_in_paris second_unknown [])
  = [search_call second_unknown "cafe" " Paris " "";
     details_call second_unknown (JStr "id1"); Sleep "0.08";
     details_call second_unknown (JStr "id2"); Sleep "0.08";
     details_call second_unknown (JStr "id3"); Sleep "0.08"].
Proof.
  refine (search_success_trace
            second_unknown [] [search_call second_unknown "cafe" " Paris " ""]
            cafes_in_paris "cafe" " Paris " ""
            [JStr "id1"; JStr "id2"; JStr "id3"] JNull
            (JObj [("leads", JArr [asdict (lead "id1" "One");
                                   asdict (lead "id3" "Three")]);
                   ("nextPageToken", JStr "")])
            _ _ _ _ _ _).
  - exists (JStr "cafe"). split; reflexivity.
  - exists (JStr " Paris "). split; reflexivity.
  - exists JNull. split; reflexivity.
  - reflexivity.
  - reflexivity.
  - reflexivity.
Defined.

(** X3.  When the lookup of an identifier raises after the lookups of
    the identifiers before it returned, the handler has made its search
    call, one details call and one pause for each of the earlier
    identifiers, and the details call that failed: no pause follows it and
    the identifiers after it are never looked up. *)
Theorem search_failure_trace
    (w : env) (log log1 log2 log3 : list event) (body : request_body)
    (cat loc tok : string) (pre post : list json) (pid next : json)
    (outcomes : list (option Lead)) (e : exn) :
  reads (request_data body) "category" cat ->
  reads (request_data body) "location" loc ->
  reads (request_data body) "pageToken" tok ->
  rejected cat loc tok = false ->
  google_text_search_once (query_of cat loc) (page_token_of tok) w log
  = (ok ((pre ++ pid :: post)%list, next), log1) ->
  lookups pre w log1 = (ok outcomes, log2) ->
  google_place_details pid w log2 = (raise e, log3) ->
  snd (api_search body w log)
  = (log ++ search_call w cat loc tok
         :: lookup_events w pre ++ [details_call w pid])%list.
Proof.
  intros Hc Hl Ht Hr Hs Hpre Hpid.
  rewrite (api_search_reads _ _ _ _ Hc Hl Ht), Hr.
  pose proof (text_search_log (query_of cat loc) (page_token_of tok) w log) as L1.
  rewrite Hs in L1. cbn [snd] in L1.
  pose proof (details_log pid w log2) as L3. rewrite Hpid in L3. cbn [snd] in L3.
  assert (Hloop : lookups (pre ++ pid :: post) w log1 = (raise e, log3)).
  { rewrite lookups_app, Hpre. cbv beta iota delta [ok].
    cbn [lookups]. unfold bind. rewrite Hpid. reflexivity. }
  rewrite (search_try_loop_raises _ _ _ _ _ _ _ _ _ Hs Hloop). cbn [snd].
  rewrite L3, (lookups_trace _ _ _ _ _ Hpre), L1.
  rewrite <- !app_assoc. reflexivity.
Qed.

Lemma search_failure_trace_witness :
  snd (api_search cafes_in_paris second_times_out [])
  = [search_call second_times_out "cafe" " Paris " "";
     details_call second_times_out (JStr "id1"); Sleep "0.08";
     details_call second_times_out (JStr "id2")].
Proof.
  refine (search_failure_trace
            second_times_out []
            [search_call second_times_out "cafe" " Paris " ""]
            [search_call second_times_out "cafe" " Paris " "";
             details_call second_times_out (JStr "id1"); Sleep "0.08"]
            [search_call second_times_out "cafe" " Paris " "";
             details_call second_times_out (JStr "id1"); Sleep "0.08";
             details_call second_times_out (JStr "id2")]
            cafes_in_paris "cafe" " Paris " ""
            [JStr "id1"] [JStr "id3"] (JStr "id2") JNull
            [Some (lead "id1" "One")] read_timeout _ _ _ _ _ _ _).
  - exists (JStr "cafe"). split; reflexivity.
  - exists (JStr " Paris "). split; reflexivity.
  - exists JNull. split; reflexivity.
  - reflexivity.
  - reflexivity.
  - reflexivity.
  - reflexivity.
Defined.

(** *** The shapes of the search response *)

(** X4.  A search response that is an object with nothing to go through
    under [results] (no such entry, an empty list, an empty text or an
    empty object), as is the error document of the provider, is answered
    200 with no lead; the search call is the only call. *)
Theorem search_without_results_is_empty_success
    (w : env) (log : list event) (body : request_body) (cat loc tok : string)
    (fields : list (string * json)) :
  reads (request_data body) "category" cat ->
  reads (request_data body) "location" loc ->
  reads (request_data body) "pageToken" tok ->
  rejected cat loc tok = false ->
  upstream w log textsearch_url
           (search_params (key_of w) (query_of cat loc) (page_token_of tok))
  = Responds (ok (JObj fields)) ->
  iter (entry fields "results" (JArr [])) = ok [] ->
  api_search body w log
  = (ok (Jsonify 200
           (JObj [("leads", JArr []);
                  ("nextPageToken", por (next_page_token fields) (JStr ""))])),
     (log ++ [search_call w cat loc tok])%list).
Proof.
  intros Hc Hl Ht Hr Hup Hres.
  rewrite (api_search_reads _ _ _ _ Hc Hl Ht), Hr. unfold try_except.
  assert (Hs : google_text_search_once (query_of cat loc) (page_token_of tok) w log
               = (ok ([], next_page_token fields),
                  (log ++ [search_call w cat loc tok])%list)).
  { apply (text_search_responds _ _ _ _ fields
             (entry fields "results" (JArr [])) [] [] Hup);
      [reflexivity|exact Hres|reflexivity]. }
  rewrite (search_body_returns _ _ _ _ _ (log ++ [search_call w cat loc tok])%list
             _ _ [] Hs eq_refl).
  reflexivity.
Qed.

Lemma search_without_results_is_empty_success_witness :
  api_search cafes_in_paris
             (answering (Responds (ok (JObj request_denied))) (Fails read_timeout))
             []
  = (ok (Jsonify 200 (JObj [("leads", JArr []); ("nextPageToken", JStr "")])),
     [HttpGet textsearch_url
              [("key", JStr "secret"); ("query", JStr "cafe in Paris")] 30]).
Proof.
  refine (search_without_results_is_empty_success
            (answering (Responds (ok (JObj request_denied))) (Fails read_timeout))
            [] cafes_in_paris "cafe" " Paris " "" request_denied _ _ _ _ _ _).
  - exists (JStr "cafe"). split; reflexivity.
  - exists (JStr " Paris "). split; reflexivity.
  - exists JNull. split; reflexivity.
  - reflexivity.
  - reflexivity.
  - reflexivity.
Defined.

(** X5.  A search response whose [results] entry is present and cannot
    be gone through ([None], a boolean or a number) is answered 500 with
    the text of the [TypeError]; the search call is the only call. *)
Theorem search_results_not_iterable
    (w : env) (log : list event) (body : request_body) (cat loc tok : string)
    (fields : list (string * json)) (v : json) :
  reads (request_data body) "category" cat ->
  reads (request_data body) "location" loc ->
  reads (request_data body) "pageToken" tok ->
  rejected cat loc tok = false ->
  upstream w log textsearch_url
           (search_params (key_of w) (query_of cat loc) (page_token_of tok))
  = Responds (ok (JObj fields)) ->
  assoc "results" fields = Some v ->
  iter v = raise (not_iterable v) ->
  api_search body w log
  = (ok (Jsonify 500
           (JObj [("error",
                   JStr ("'" ++ type_name v ++ "' object is not iterable"))])),
     (log ++ [search_call w cat loc tok])%list).
Proof.
  intros Hc Hl Ht Hr Hup Hres Hiter.
  rewrite (api_search_reads _ _ _ _ Hc Hl Ht), Hr.
  assert (Hs : google_text_search_once (query_of cat loc) (page_token_of tok) w log
               = (raise (not_iterable v),
                  (log ++ [search_call w cat loc tok])%list)).
  { rewrite (text_search_decoded _ _ _ _ _ Hup). cbn [get]. rewrite Hres.
    cbn [rbind ok]. rewrite Hiter. reflexivity. }
  rewrite (search_try_search_raises _ _ _ _ _ _ Hs). reflexivity.
Qed.

Lemma search_results_not_iterable_witness :
  api_search cafes_in_paris
             (answering (Responds (ok (JObj [("results", JNull)])))
                        (Fails read_timeout))
             []
  = (ok (Jsonify 500
           (JObj [("error", JStr "'NoneType' object is not iterable")])),
     [HttpGet textsearch_url
              [("key", JStr "secret"); ("query", JStr "cafe in Paris")] 30]).
Proof.
  refine (search_results_not_iterable
            (answering (Responds (ok (JObj [("results", JNull)])))
                       (Fails read_timeout))
            [] cafes_in_paris "cafe" " Paris " "" [("results", JNull)] JNull
            _ _ _ _ _ _ _).
  - exists (JStr "cafe"). split; reflexivity.
  - exists (JStr " Paris "). split; reflexivity.
  - exists JNull. split; reflexivity.
  - reflexivity.
  - reflexivity.
  - reflexivity.
  - reflexivity.
Defined.

(** X6.  A search response that decodes to anything but an object is
    answered 500 with the text of the [AttributeError]; the search call
    is the only call. *)
Theorem search_response_not_object
    (w : env) (log : list event) (body : request_body) (cat loc tok : string)
    (data : json) :
  reads (request_data body) "category" cat ->
  reads (request_data body) "location" loc ->
  reads (request_data body) "pageToken" tok ->
  rejected cat loc tok = false ->
  upstream w log textsearch_url
           (search_params (key_of w) (query_of cat loc) (page_token_of tok))
  = Responds (ok data) ->
  is_dict data = false ->
  api_search body w log
  = (ok (Jsonify 500
           (JObj [("error",
                   JStr ("'" ++ type_name data
                             ++ "' object has no attribute 'get'"))])),
     (log ++ [search_call w cat loc tok])%list).
Proof.
  intros Hc Hl Ht Hr Hup Hd.
  rewrite (api_search_reads _ _ _ _ Hc Hl Ht), Hr.
  assert (Hs : google_text_search_once (query_of cat loc) (page_token_of tok) w log
               = (raise (no_attribute data "get"),
                  (log ++ [search_call w cat loc tok])%list)).
  { rewrite (text_search_decoded _ _ _ _ _ Hup).
    destruct data; try reflexivity. discriminate Hd. }
  rewrite (search_try_search_raises _ _ _ _ _ _ Hs). reflexivity.
Qed.

Lemma search_response_not_object_witness :
  api_search cafes_in_paris
             (answering (Responds (ok (JArr []))) (Fails read_timeout)) []
  = (ok (Jsonify 500
           (JObj [("error", JStr "'list' object has no attribute 'get'")])),
     [HttpGet textsearch_url
              [("key", JStr "secret"); ("query", JStr "cafe in Paris")] 30]).
Proof.
  refine (search_response_not_object
            (answering (Responds (ok (JArr []))) (Fails read_timeout))
            [] cafes_in_paris "cafe" " Paris " "" (JArr []) _ _ _ _ _ _).
  - exists (JStr "cafe"). split; reflexivity.
  - exists (JStr " Paris "). split; reflexivity.
  - exists JNull. split; reflexivity.
  - reflexivity.
  - reflexivity.
  - reflexivity.
Defined.

(** X7.  An exception raised by the search call, or by the decoding of
    its response, is answered with the text of the exception: 502 with
    the prefix "HTTP error: " when it is a [requests.HTTPError], 500 for
    any other class; the search call is the only call. *)
Theorem search_step_failure
    (w : env) (log : list event) (body : request_body) (cat loc tok : string)
    (e : exn) :
  reads (request_data body) "category" cat ->
  reads (request_data body) "location" loc ->
  reads (request_data body) "pageToken" tok ->
  rejected cat loc tok = false ->
  upstream w log textsearch_url
           (search_params (key_of w) (query_of cat loc) (page_token_of tok))
  = Fails e
  \/ upstream w log textsearch_url
              (search_params (key_of w) (query_of cat loc) (page_token_of tok))
     = Responds (raise e) ->
  api_search body w log
  = (ok (Jsonify (if is_HTTPError e then 502 else 500)
           (JObj [("error",
                   JStr (if is_HTTPError e then "HTTP error: " ++ str_exn e
                         else str_exn e))])),
     (log ++ [search_call w cat loc tok])%list).
Proof.
  intros Hc Hl Ht Hr Hup.
  rewrite (api_search_reads _ _ _ _ Hc Hl Ht), Hr.
  assert (Hs : google_text_search_once (query_of cat loc) (page_token_of tok) w log
               = (raise e, (log ++ [search_call w cat loc tok])%list)).
  { destruct Hup as [Hup|Hup].
    - apply (text_search_fails _ _ _ _ _ Hup).
    - unfold google_text_search_once, bind, api_key, requests_get.
      fold (key_of w). rewrite Hup. reflexivity. }
  rewrite (search_try_search_raises _ _ _ _ _ _ Hs).
  unfold answer_to, error_response. destruct (is_HTTPError e); reflexivity.
Qed.

Lemma search_step_failure_witness :
  api_search cafes_in_paris
             (answering (Responds (raise not_json)) (Fails read_timeout)) []
  = (ok (Jsonify 500
           (JObj [("error", JStr "Expecting value: line 1 column 1 (char 0)")])),
     [HttpGet textsearch_url
              [("key", JStr "secret"); ("query", JStr "cafe in Paris")] 30])
  /\ api_search cafes_in_paris
                (answering (Fails bad_gateway) (Fails read_timeout)) []
     = (ok (Jsonify 502
              (JObj [("error",
                      JStr "HTTP error: 502 Server Error: Bad Gateway for url")])),
        [HttpGet textsearch_url
                 [("key", JStr "secret"); ("query", JStr "cafe in Paris")] 30]).
Proof.
  split.
  - refine (search_step_failure
              (answering (Responds (raise not_json)) (Fails read_timeout))
              [] cafes_in_paris "cafe" " Paris " "" not_json _ _ _ _ _).
    + exists (JStr "cafe"). split; reflexivity.
    + exists (JStr " Paris "). split; reflexivity.
    + exists JNull. split; reflexivity.
    + reflexivity.
    + right. reflexivity.
  - refine (search_step_failure
              (answering (Fails bad_gateway) (Fails read_timeout))
              [] cafes_in_paris "cafe" " Paris " "" bad_gateway _ _ _ _ _).
    + exists (JStr "cafe"). split; reflexivity.
    + exists (JStr " Paris "). split; reflexivity.
    + exists JNull. split; reflexivity.
    + reflexivity.
    + left. reflexivity.
Defined.

(** *** The identifiers of a search response *)

(** X8.  For results that are all objects, the identifiers are the
    [place_id] entries that are true in a condition, in the order of the
    results and with their repetitions; a result without the entry, or
    with [None] or an empty text, is skipped. *)
Theorem place_ids_of_objects (records : list (list (string * json))) :
  place_ids_of (map JObj records)
  = ok (filter truthy (map (fun r => entry r "place_id" JNull) records)).
Proof.
  induction records as [|r rs IH]; [reflexivity|].
  cbn [map place_ids_of get rbind ok filter]. fold (entry r "place_id" JNull).
  destruct (truthy (entry r "place_id" JNull)).
  - rewrite IH. reflexivity.
  - exact IH.
Qed.

Lemma place_ids_of_not_dict (items : list json) :
  forall x,
    In x items -> is_dict x = false ->
    exists e, place_ids_of items = raise e /\ exn_cls e = AttributeError.
Proof.
  induction items as [|y ys IH]; intros x Hin Hx; [destruct Hin|].
  destruct (is_dict y) eqn:Hy.
  - destruct y; try discriminate Hy.
    destruct Hin as [Heq|Hin]; [subst x; discriminate Hx|].
    destruct (IH x Hin Hx) as (e & He & Hcls).
    exists e. split; [|exact Hcls].
    cbn [place_ids_of get rbind ok]. rewrite He.
    destruct (truthy _); reflexivity.
  - exists (no_attribute y "get"). split; [|reflexivity].
    cbn [place_ids_of]. destruct y; try reflexivity. discriminate Hy.
Qed.

(** X9.  One result of the search response that is not an object makes
    the whole search answer 500, before any details call, whatever the
    other results are. *)
Theorem search_result_not_object
    (w : env) (log : list event) (body : request_body) (cat loc tok : string)
    (fields : list (string * json)) (items : list json) (x : json) :
  reads (request_data body) "category" cat ->
  reads (request_data body) "location" loc ->
  reads (request_data body) "pageToken" tok ->
  rejected cat loc tok = false ->
  upstream w log textsearch_url
           (search_params (key_of w) (query_of cat loc) (page_token_of tok))
  = Responds (ok (JObj fields)) ->
  iter (entry fields "results" (JArr [])) = ok items ->
  In x items ->
  is_dict x = false ->
  exists msg,
    api_search body w log
    = (ok (Jsonify 500 (JObj [("error", JStr msg)])),
       (log ++ [search_call w cat loc tok])%list).
Proof.
  intros Hc Hl Ht Hr Hup Hres Hin Hx.
  rewrite (api_search_reads _ _ _ _ Hc Hl Ht), Hr.
  destruct (place_ids_of_not_dict items x Hin Hx) as (e & He & Hcls).
  assert (Hs : google_text_search_once (query_of cat loc) (page_token_of tok) w log
               = (raise e, (log ++ [search_call w cat loc tok])%list)).
  { rewrite (text_search_decoded _ _ _ _ _ Hup). cbn [get rbind ok].
    fold (entry fields "results" (JArr [])). rewrite Hres. cbn [rbind ok].
    rewrite He. reflexivity. }
  rewrite (search_try_search_raises _ _ _ _ _ _ Hs).
  exists (str_exn e). unfold answer_to, is_HTTPError. rewrite Hcls. reflexivity.
Qed.

Lemma search_result_not_object_witness :
  exists msg,
    api_search cafes_in_paris
      (answering
         (Responds (ok (JObj [("results",
                               JArr [JObj [("place_id", JStr "id1")];
                                     JStr "id2"])])))
         (Responds (ok (place "id1" "One"))))
      []
    = (ok (Jsonify 500 (JObj [("error", JStr msg)])),
       [HttpGet textsearch_url
                [("key", JStr "secret"); ("query", JStr "cafe in Paris")] 30]).
Proof.
  refine (search_result_not_object
            (answering
               (Responds (ok (JObj [("results",
                                     JArr [JObj [("place_id", JStr "id1")];
                                           JStr "id2"])])))
               (Responds (ok (place "id1" "One"))))
            [] cafes_in_paris "cafe" " Paris " ""
            [("results", JArr [JObj [("place_id", JStr "id1")]; JStr "id2"])]
            [JObj [("place_id", JStr "id1")]; JStr "id2"] (JStr "id2")
            _ _ _ _ _ _ _ _).
  - exists (JStr "cafe"). split; reflexivity.
  - exists (JStr " Paris "). split; reflexivity.
  - exists JNull. split; reflexivity.
  - reflexivity.
  - reflexivity.
  - reflexivity.
  - simpl. right. left. reflexivity.
  - reflexivity.
Defined.

(** *** The lead built from a details result *)

(** X10.  A result whose [geometry] is missing, [None] or empty gives a
    lead without coordinates.  A missing name, address or identifier is
    the empty text, any other missing entry is [None], and an entry that
    is present is taken as it is. *)
Theorem lead_without_geometry (p : list (string * json)) :
  truthy (entry p "geometry" JNull) = false ->
  lead_of (JObj p) = ok (lead_with p JNull JNull).
Proof.
  intros Hg. unfold lead_of, coordinate. cbn [get rbind ok].
  fold (entry p "geometry" JNull). unfold por. rewrite Hg. reflexivity.
Qed.

Lemma lead_without_geometry_witness :
  lead_of (JObj bare_result)
  = ok (mkLead JNull (JStr "") JNull JNull JNull JNull (JStr "abc") JNull JNull).
Proof. exact (lead_without_geometry bare_result eq_refl). Defined.

(** X11.  When [geometry] is an object whose [location] is an object, or
    is missing, the latitude and the longitude of the lead are the [lat]
    and [lng] entries of the location, each [None] when missing. *)
Theorem lead_coordinates (p g l : list (string * json)) :
  assoc "geometry" p = Some (JObj g) ->
  entry g "location" (JObj []) = JObj l ->
  lead_of (JObj p)
  = ok (lead_with p (entry l "lat" JNull) (entry l "lng" JNull)).
Proof.
  intros Hg Hl. unfold lead_of, coordinate. cbn [get rbind ok].
  rewrite Hg.
  assert (Hor : por (JObj g) (JObj []) = JObj g)
    by (destruct g; reflexivity).
  rewrite Hor. cbn [get rbind ok]. fold (entry g "location" (JObj [])).
  rewrite Hl. reflexivity.
Qed.

Lemma lead_coordinates_witness :
  lead_of (JObj cafe_result)
  = ok (mkLead (JStr "Cafe Zero") (JStr "") (JFloat "4.5") (JInt 0) JNull JNull
               (JStr "abc") (JFloat "48.1") (JFloat "2.3")).
Proof.
  exact (lead_coordinates
           cafe_result
           [("location", JObj [("lat", JFloat "48.1"); ("lng", JFloat "2.3")])]
           [("lat", JFloat "48.1"); ("lng", JFloat "2.3")]
           eq_refl eq_refl).
Defined.

(** X12.  When [geometry] is an object whose [location] is present and is
    not an object, [None] included, building the lead raises an
    [AttributeError]; so does a [geometry] that is true in a condition
    and is not an object. *)
Theorem lead_location_not_object (p : list (string * json)) (v : json) :
  (exists g, assoc "geometry" p = Some (JObj g)
             /\ assoc "location" g = Some v)
  \/ (assoc "geometry" p = Some v /\ truthy v = true) ->
  is_dict v = false ->
  lead_of (JObj p) = raise (no_attribute v "get").
Proof.
  intros [(g & Hg & Hl)|(Hg & Ht)] Hv;
    unfold lead_of, coordinate; cbn [get rbind ok]; rewrite Hg.
  - assert (Hor : por (JObj g) (JObj []) = JObj g)
      by (destruct g; reflexivity).
    rewrite Hor. cbn [get rbind ok]. rewrite Hl.
    destruct v; try reflexivity. discriminate Hv.
  - unfold por. rewrite Ht. destruct v; try reflexivity. discriminate Hv.
Qed.

Lemma lead_location_not_object_witness :
  lead_of (JObj null_location_result)
  = raise (Exn AttributeError "'NoneType' object has no attribute 'get'").
Proof.
  refine (lead_location_not_object null_location_result JNull _ _).
  - left. exists [("location", JNull)]. split; reflexivity.
  - reflexivity.
Defined.

(** *** One details lookup *)

(** X13.  A details response that is an object whose [result] is
    missing, [None] or empty is no lead and no failure; the lookup has
    made its one call. *)
Theorem lookup_without_result
    (w : env) (log : list event) (pid : json) (dj : list (string * json)) :
  upstream w log details_url
           [("place_id", pid); ("fields", JStr details_fields); ("key", key_of w)]
  = Responds (ok (JObj dj)) ->
  truthy (entry dj "result" JNull) = false ->
  google_place_details pid w log = (ok None, (log ++ [details_call w pid])%list).
Proof.
  intros Hup Hr.
  exact (details_no_result pid w log (JObj dj) (entry dj "result" JNull)
                           Hup eq_refl Hr).
Qed.

Lemma lookup_without_result_witness :
  google_place_details (JStr "id2") second_unknown []
  = (ok None, [details_call second_unknown (JStr "id2")]).
Proof.
  exact (lookup_without_result second_unknown [] (JStr "id2")
                               [("status", JStr "NOT_FOUND")] eq_refl eq_refl).
Defined.

(** X14.  A details response whose [result] is true in a condition and
    is not an object (a text, a number, a list) makes the lookup raise an
    [AttributeError] after its one call. *)
Theorem lookup_result_not_object
    (w : env) (log : list event) (pid : json) (dj : list (string * json))
    (v : json) :
  upstream w log details_url
           [("place_id", pid); ("fields", JStr details_fields); ("key", key_of w)]
  = Responds (ok (JObj dj)) ->
  assoc "result" dj = Some v ->
  truthy v = true ->
  is_dict v = false ->
  google_place_details pid w log
  = (raise (no_attribute v "get"), (log ++ [details_call w pid])%list).
Proof.
  intros Hup Hres Ht Hd.
  unfold google_place_details, bind, api_key, requests_get. fold (key_of w).
  rewrite Hup. cbn [response_json lift ok ret get]. rewrite Hres.
  cbn [lift ok ret]. rewrite Ht. cbn [negb].
  destruct v; try reflexivity. discriminate Hd.
Qed.

Lemma lookup_result_not_object_witness :
  google_place_details
    (JStr "id1")
    (answering (Fails read_timeout)
               (Responds (ok (JObj [("result", JStr "gone")]))))
    []
  = (raise (Exn AttributeError "'str' object has no attribute 'get'"),
     [details_call
        (answering (Fails read_timeout)
                   (Responds (ok (JObj [("result", JStr "gone")]))))
        (JStr "id1")]).
Proof.
  exact (lookup_result_not_object
           (answering (Fails read_timeout)
                      (Responds (ok (JObj [("result", JStr "gone")]))))
           [] (JStr "id1") [("result", JStr "gone")] (JStr "gone")
           eq_refl eq_refl eq_refl eq_refl).
Defined.

Lemma lead_of_place_id (p : list (string * json)) (l : Lead) :
  lead_of (JObj p) = ok l -> placeId l = entry p "place_id" (JStr "").
Proof.
  unfold lead_of. cbn [get rbind ok]. intros H.
  destruct (coordinate (JObj p) "lat") as [e|la]; [discriminate H|].
  destruct (coordinate (JObj p) "lng") as [e|lo]; [discriminate H|].
  cbn [rbind ok] in H. injection H as <-. reflexivity.
Qed.

(** X24.  A details response whose [result] is a non-empty object from
    which a lead can be built gives that lead after one call.  The
    identifier of the lead is the [place_id] entry of the result, the
    empty text when the result has none: it is not the identifier that
    was looked up. *)
Theorem lookup_takes_identifier_from_response
    (w : env) (log : list event) (pid : json) (dj p : list (string * json))
    (l : Lead) :
  upstream w log details_url
           [("place_id", pid); ("fields", JStr details_fields); ("key", key_of w)]
  = Responds (ok (JObj dj)) ->
  assoc "result" dj = Some (JObj p) ->
  p <> [] ->
  lead_of (JObj p) = ok l ->
  google_place_details pid w log
  = (ok (Some l), (log ++ [details_call w pid])%list)
  /\ placeId l = entry p "place_id" (JStr "").
Proof.
  intros Hup Hres Hp Hl. split; [|now apply lead_of_place_id].
  unfold google_place_details, bind, api_key, requests_get. fold (key_of w).
  rewrite Hup. cbn [response_json lift ok ret get]. rewrite Hres.
  cbn [lift ok ret truthy]. destruct p; [contradiction|].
  cbn [negb]. rewrite Hl. reflexivity.
Qed.

Lemma lookup_takes_identifier_from_response_witness :
  google_place_details
    (JStr "id1")
    (answering (Fails read_timeout)
               (Responds (ok (JObj [("result", JObj cafe_result)]))))
    []
  = (ok (Some (mkLead (JStr "Cafe Zero") (JStr "") (JFloat "4.5") (JInt 0)
                      JNull JNull (JStr "abc") (JFloat "48.1") (JFloat "2.3"))),
     [details_call
        (answering (Fails read_timeout)
                   (Responds (ok (JObj [("result", JObj cafe_result)]))))
        (JStr "id1")]).
Proof.
  refine (proj1 (lookup_takes_identifier_from_response
                   (answering (Fails read_timeout)
                              (Responds (ok (JObj [("result", JObj cafe_result)]))))
                   [] (JStr "id1") [("result", JObj cafe_result)] cafe_result
                   _ eq_refl eq_refl _ eq_refl)).
  intros H. discriminate H.
Defined.

(** *** The 200 document and its way back through the export *)

Lemma api_search_200_inv (body : request_body) (w : env) (log : list event)
    (payload : json) :
  fst (api_search body w log) = ok (Jsonify 200 payload) ->
  exists ls next,
    payload = JObj [("leads", JArr (map asdict ls));
                    ("nextPageToken", por next (JStr ""))].
Proof.
  unfold api_search, bind. intros H.
  destruct (text_field (request_data body) "category") as [e|c];
    cbn [lift throw ret fst] in H; [discriminate H|].
  destruct (text_field (request_data body) "location") as [e|l];
    cbn [lift throw ret fst] in H; [discriminate H|].
  destruct (text_field (request_data body) "pageToken") as [e|t];
    cbn [lift throw ret fst] in H; [discriminate H|].
  match type of H with
  | context [if ?b then _ else _] => destruct b
  end.
  - cbn [ret fst] in H. discriminate H.
  - match type of H with
    | context [try_except (search_body ?q ?pt) _ _ _] =>
        destruct (search_try_cases q pt w log)
          as [(ls & next & log' & E)|(e & log' & E)]; rewrite E in H
    end; cbn [fst] in H.
    + injection H as <-. exists ls, next. reflexivity.
    + destruct (answer_to_error e) as (st & msg & Ha & Hst). rewrite Ha in H.
      injection H as Hs _. subst st. destruct Hst as [F|F]; discriminate F.
Qed.

Lemma por_empty_text (v : json) :
  por v (JStr "") = JStr "" \/ truthy (por v (JStr "")) = true.
Proof.
  unfold por. destruct (truthy v) eqn:E; [right; exact E|left; reflexivity].
Qed.

(** X15.  Every 200 answer of the search is made from a dict with two
    entries: [leads], the list of the [asdict] of the leads found, and
    [nextPageToken], which is the empty text or a value that is true in a
    condition, never [None]. *)
Theorem search_document_shape (body : request_body) (w : env)
    (log : list event) (payload : json) :
  fst (api_search body w log) = ok (Jsonify 200 payload) ->
  exists ls token,
    payload = JObj [("leads", JArr (map asdict ls)); ("nextPageToken", token)]
    /\ (token = JStr "" \/ truthy token = true).
Proof.
  intros H. destruct (api_search_200_inv _ _ _ _ H) as (ls & next & ->).
  exists ls, (por next (JStr "")). split; [reflexivity|apply por_empty_text].
Qed.

Lemma search_document_shape_witness :
  exists ls token,
    JObj [("leads", JArr [asdict (lead "id1" "One"); asdict (lead "id3" "Three")]);
          ("nextPageToken", JStr "")]
    = JObj [("leads", JArr (map asdict ls)); ("nextPageToken", token)]
    /\ (token = JStr "" \/ truthy token = true).
Proof.
  exact (search_document_shape cafes_in_paris second_unknown [] _ eq_refl).
Defined.

(** X16.  The 200 document of a search, posted as it is to the export,
    is accepted whenever no cell of a lead holds a lone surrogate: a
    reader finds in the CSV document the header row and then one row of
    nine cells per lead, in the order of the leads; for a lead whose
    values are scalars the cells are its nine values, emptied where they
    are false in a condition. *)
Theorem search_then_export (body : request_body) (w : env)
    (log : list event) (payload : json) :
  fst (api_search body w log) = ok (Jsonify 200 payload) ->
  exists ls,
    get payload "leads" JNull = ok (JArr (map asdict ls))
    /\ ((forall l, In l ls -> encodable (asdict_fields l)) ->
        exists data rows,
          api_export_csv (JsonBody payload) = ok (Raw 200 csv_headers data)
          /\ Csv.read (decode_utf8 data) = Some (header_cells :: rows)
          /\ Forall2 (fun l row =>
                        List.length row = 9%nat
                        /\ (flat (asdict_fields l) ->
                            row = map Csv.cell (lead_cells l)))
                     ls rows).
Proof.
  intros H. destruct (api_search_200_inv _ _ _ _ H) as (ls & next & ->).
  exists ls. split; [reflexivity|]. intros Henc.
  destruct (export_document
              (JsonBody (JObj [("leads", JArr (map asdict ls));
                               ("nextPageToken", por next (JStr ""))]))
              (map asdict_fields ls)) as [Hdoc Hread].
  - rewrite map_map. reflexivity.
  - intros r Hr. apply in_map_iff in Hr. destruct Hr as (l & <- & Hl).
    now apply Henc.
  - eexists _, _. split; [exact Hdoc|]. rewrite decode_encode.
    split; [exact Hread|].
    clear. induction ls as [|l ls IH]; constructor; [|exact IH].
    split; [reflexivity|]. intros _. reflexivity.
Qed.

Lemma search_then_export_witness :
  exists ls,
    get (JObj [("leads", JArr [asdict (lead "id1" "One");
                               asdict (lead "id3" "Three")]);
               ("nextPageToken", JStr "")]) "leads" JNull
    = ok (JArr (map asdict ls))
    /\ ((forall l, In l ls -> encodable (asdict_fields l)) ->
        exists data rows,
          api_export_csv
            (JsonBody (JObj [("leads", JArr [asdict (lead "id1" "One");
                                             asdict (lead "id3" "Three")]);
                             ("nextPageToken", JStr "")]))
          = ok (Raw 200 csv_headers data)
          /\ Csv.read (decode_utf8 data) = Some (header_cells :: rows)
          /\ Forall2 (fun l row =>
                        List.length row = 9%nat
                        /\ (flat (asdict_fields l) ->
                            row = map Csv.cell (lead_cells l)))
                     ls rows).
Proof.
  exact (search_then_export cafes_in_paris second_unknown [] _ eq_refl).
Defined.

(** *** The cells of the export *)

(** X17.  The export reads nine keys of a record and nothing else: two
    records that agree on these keys give the same row, whatever other
    keys they have. *)
Theorem export_ignores_other_keys (r1 r2 : list (string * json)) :
  (forall k, In k columns -> assoc k r1 = assoc k r2) ->
  lead_row (JObj r1) = lead_row (JObj r2).
Proof.
  intros H. rewrite !lead_row_record. f_equal. unfold record_row.
  apply map_ext_in. intros k Hk. unfold written. now rewrite (H k Hk).
Qed.

Lemma export_ignores_other_keys_witness :
  lead_row (JObj [("id", JInt 7); ("name", JStr "A"); ("score", JInt 3)])
  = lead_row (JObj [("name", JStr "A")]).
Proof.
  apply (export_ignores_other_keys
           [("id", JInt 7); ("name", JStr "A"); ("score", JInt 3)]
           [("name", JStr "A")]).
  intros k Hk. simpl in Hk.
  repeat (destruct Hk as [<-|Hk]; [reflexivity|]). destruct Hk.
Defined.

Lemma truthy_false_iff (v : json) :
  truthy v = false <-> In v falsy_values.
Proof.
  split.
  - destruct v as [|b|z|r|s0|l|l]; cbn [truthy]; intros H.
    + left. reflexivity.
    + subst b. right; left. reflexivity.
    + apply negb_false_iff, Z.eqb_eq in H. subst z.
      right; right; left. reflexivity.
    + apply negb_false_iff in H. unfold float_is_zero in H.
      apply orb_true_iff in H. destruct H as [H|H]; apply String.eqb_eq in H;
        subst r.
      * do 3 right. left. reflexivity.
      * do 4 right. left. reflexivity.
    + apply negb_false_iff, String.eqb_eq in H. subst s0.
      do 5 right. left. reflexivity.
    + destruct l; [|discriminate H]. do 6 right. left. reflexivity.
    + destruct l; [|discriminate H]. do 7 right. left. reflexivity.
  - intros H. unfold falsy_values in H. cbn [In] in H.
    repeat (destruct H as [<-|H]; [reflexivity|]). destruct H.
Qed.

(** X18.  The value written for a key of a record is the empty text
    exactly when the key is missing or holds [None], [False], [0], [0.0],
    [-0.0], an empty text, an empty list or an empty object; in every
    other case it is the value of the record, unchanged. *)
Theorem export_blank_iff (r : list (string * json)) (k : string) :
  (field_or_empty (JObj r) k = ok (JStr "") <-> In (field_value r k) falsy_values)
  /\ (~ In (field_value r k) falsy_values ->
      field_or_empty (JObj r) k = ok (field_value r k)).
Proof.
  unfold field_or_empty, field_value. cbn [get rbind ok]. unfold por.
  destruct (assoc k r) as [v|].
  - destruct (truthy v) eqn:T.
    + split; [split|].
      * intros H. injection H as ->. discriminate T.
      * intros H. apply truthy_false_iff in H. rewrite H in T. discriminate T.
      * reflexivity.
    + assert (Hin : In v falsy_values) by now apply truthy_false_iff.
      split; [split|].
      * intros _. exact Hin.
      * reflexivity.
      * intros Hn. contradiction.
  - cbn [truthy String.eqb negb]. split; [split|].
    + intros _. left. reflexivity.
    + reflexivity.
    + intros Hn. exfalso. apply Hn. left. reflexivity.
Qed.

Lemma export_blank_iff_witness :
  field_or_empty (JObj zero_reviews) "reviewCount" = ok (JStr "")
  /\ field_or_empty (JObj zero_reviews) "rating" = ok (JFloat "4.5").
Proof.
  split.
  - apply (proj1 (export_blank_iff zero_reviews "reviewCount")).
    simpl. right; right; left. reflexivity.
  - apply (proj2 (export_blank_iff zero_reviews "rating")).
    simpl. intros H.
    repeat (destruct H as [H|H]; [discriminate H|]). destruct H.
Defined.

Lemma write_rows_after_records (good : list (list (string * json)))
    (items : list json) :
  forall buf,
    write_rows buf (map JObj good ++ items)
    = write_rows (buf ++ lines (map (fun r => Csv.writerow (record_row r)) good))
                 items.
Proof.
  induction good as [|r rs IH]; intros buf.
  - cbn [map app lines fold_right]. now rewrite append_nil_r.
  - cbn [map app write_rows]. rewrite lead_row_record. cbn [rbind ok].
    rewrite IH. cbn [lines fold_right]. now rewrite append_assoc.
Qed.

(** X19.  When the elements of [leads] are mappings up to one that is
    not, the handler raises the [AttributeError] of that element, named
    after its type; the rows written before it are lost and the elements
    after it are not looked at. *)
Theorem export_first_non_mapping
    (body : request_body) (good : list (list (string * json)))
    (bad : json) (rest : list json) :
  get (request_data body) "leads" JNull
  = ok (JArr (map JObj good ++ bad :: rest)%list) ->
  is_dict bad = false ->
  api_export_csv body
  = raise (Exn AttributeError
               ("'" ++ type_name bad ++ "' object has no attribute 'get'")).
Proof.
  intros Hget Hbad. unfold api_export_csv. rewrite Hget. cbn [rbind ok].
  rewrite write_rows_after_records. cbn [write_rows].
  rewrite (lead_row_not_dict _ Hbad). reflexivity.
Qed.

Lemma export_first_non_mapping_witness :
  api_export_csv
    (JsonBody (JObj [("leads", JArr [JObj [("name", JStr "A")]; JInt 5;
                                     JStr "B"])]))
  = raise (Exn AttributeError "'int' object has no attribute 'get'").
Proof.
  exact (export_first_non_mapping
           (JsonBody (JObj [("leads", JArr [JObj [("name", JStr "A")]; JInt 5;
                                            JStr "B"])]))
           [[("name", JStr "A")]] (JInt 5) [JStr "B"] eq_refl eq_refl).
Defined.

(** X25.  When [leads] is a list of mappings and a cell written for one
    of them holds a lone surrogate, the encoding of the document raises a
    [UnicodeEncodeError] that nothing catches: no document is returned,
    whatever the other records are. *)
Theorem export_surrogate_raises
    (body : request_body) (records : list (list (string * json)))
    (r : list (string * json)) (k : string) :
  get (request_data body) "leads" JNull = ok (JArr (map JObj records)) ->
  In r records ->
  In k columns ->
  has_surrogate (Csv.cell (written r k)) = true ->
  exists e, api_export_csv body = raise e /\ exn_cls e = UnicodeEncodeError.
Proof.
  intros Hleads Hr Hk Hs.
  unfold api_export_csv. rewrite Hleads. cbn [rbind ok].
  rewrite write_rows_records. cbn [rbind ok].
  rewrite encode_with_surrogate.
  - eexists. split; reflexivity.
  - apply has_surrogate_app_r.
    replace (lines (map (fun x => Csv.writerow (record_row x)) records))
      with (joined (map Csv.writerow (map record_row records)))
      by (rewrite map_map; reflexivity).
    apply has_surrogate_rows_true with (record_row r).
    + now apply in_map.
    + apply has_surrogate_writerow_true with (written r k); [|exact Hs].
      unfold record_row. now apply in_map.
Qed.

Lemma export_surrogate_raises_witness :
  exists e,
    api_export_csv
      (JsonBody (JObj [("leads",
                        JArr [JObj [("name", JStr "A")];
                              JObj [("name", JStr "B");
                                    ("website", JStr ("x" ++ lone_surrogate))]])]))
    = raise e
    /\ exn_cls e = UnicodeEncodeError.
Proof.
  apply (export_surrogate_raises
           (JsonBody (JObj [("leads",
                             JArr [JObj [("name", JStr "A")];
                                   JObj [("name", JStr "B");
                                         ("website", JStr ("x" ++ lone_surrogate))]])]))
           [[("name", JStr "A")];
            [("name", JStr "B"); ("website", JStr ("x" ++ lone_surrogate))]]
           [("name", JStr "B"); ("website", JStr ("x" ++ lone_surrogate))]
           "website").
  - reflexivity.
  - simpl. right; left. reflexivity.
  - simpl. do 5 right. left. reflexivity.
  - reflexivity.
Defined.

(** *** The body of a request *)

(** X20.  A body that parses to a value that is false in a condition
    ([null], [false], [0], an empty text, list or object) is read as the
    empty object: the search answers its 400 document without calling
    anything, and the export answers its 400 document. *)
Theorem falsy_body_is_empty_object (j : json) :
  truthy j = false ->
  (forall w log,
      api_search (JsonBody j) w log
      = (ok (Jsonify 400
               (JObj [("error", JStr "category and location are required")])),
         log))
  /\ api_export_csv (JsonBody j)
     = ok (Jsonify 400 (JObj [("error", JStr "No leads provided")])).
Proof.
  intros Hj.
  assert (Hd : request_data (JsonBody j) = JObj [])
    by (unfold request_data, por; cbn [get_json_silent]; now rewrite Hj).
  split.
  - intros w log. unfold api_search. rewrite Hd. reflexivity.
  - unfold api_export_csv. rewrite Hd. reflexivity.
Qed.

Lemma falsy_body_is_empty_object_witness :
  api_search (JsonBody (JArr [])) second_unknown []
  = (ok (Jsonify 400
           (JObj [("error", JStr "category and location are required")])),
     [])
  /\ api_export_csv (JsonBody (JInt 0))
     = ok (Jsonify 400 (JObj [("error", JStr "No leads provided")])).
Proof.
  split.
  - apply (proj1 (falsy_body_is_empty_object (JArr []) eq_refl)).
  - apply (proj2 (falsy_body_is_empty_object (JInt 0) eq_refl)).
Defined.

(** X21.  A body that parses to a value that is true in a condition and
    is not an object (a non-empty list or text, a number, [true]) makes
    both handlers raise an [AttributeError] that nothing catches; the
    search has called nothing. *)
Theorem non_object_body_raises (j : json) :
  truthy j = true ->
  is_dict j = false ->
  (forall w log,
      api_search (JsonBody j) w log = (raise (no_attribute j "get"), log))
  /\ api_export_csv (JsonBody j) = raise (no_attribute j "get").
Proof.
  intros Ht Hd. split.
  - intros w log. unfold api_search, request_data, por.
    cbn [get_json_silent]. rewrite Ht.
    destruct j; try reflexivity. discriminate Hd.
  - now apply export_non_object_body.
Qed.

Lemma non_object_body_raises_witness :
  api_search (JsonBody (JArr [JStr "cafe"])) second_unknown []
  = (raise (Exn AttributeError "'list' object has no attribute 'get'"), [])
  /\ api_export_csv (JsonBody (JArr [JStr "cafe"]))
     = raise (Exn AttributeError "'list' object has no attribute 'get'").
Proof.
  destruct (non_object_body_raises (JArr [JStr "cafe"]) eq_refl eq_refl)
    as [Hs He].
  split; [apply Hs|exact He].
Defined.

Lemma text_field_object_cases (fields : list (string * json)) (k : string) :
  (exists s, text_field (JObj fields) k = ok s)
  \/ (exists e, text_field (JObj fields) k = raise e
                /\ exn_cls e = AttributeError).
Proof.
  unfold text_field. cbn [get rbind ok].
  destruct (por _ (JStr "")) as [|b|z|r|s0|l|l] eqn:E; cbn [strip_method];
    try (right; eexists; split; reflexivity).
  left. eexists. reflexivity.
Qed.

(** X22.  When the category, the location or the page token of a request
    is true in a condition and is not a text (a number, [true], a
    non-empty list or object), the search handler raises an
    [AttributeError] before its [try] block: nothing catches it and
    nothing has been called. *)
Theorem non_text_entry_raises
    (fields : list (string * json)) (k : string) (v : json)
    (w : env) (log : list event) :
  In k ["category"; "location"; "pageToken"] ->
  assoc k fields = Some v ->
  truthy v = true ->
  (forall s, v <> JStr s) ->
  exists e,
    api_search (JsonBody (JObj fields)) w log = (raise e, log)
    /\ exn_cls e = AttributeError.
Proof.
  intros Hk Hv Ht Hs.
  assert (Hf : request_data (JsonBody (JObj fields)) = JObj fields).
  { unfold request_data, por. cbn [get_json_silent truthy].
    destruct fields; [discriminate Hv|reflexivity]. }
  pose proof (text_field_not_text fields k v Hv Ht Hs) as Hbad.
  unfold api_search, bind. rewrite Hf.
  destruct (text_field_object_cases fields "category") as [(c & Ec)|(e & Ee & Hc)];
    [|exists e; rewrite Ee; split; [reflexivity|exact Hc]].
  destruct (text_field_object_cases fields "location") as [(l & El)|(e & Ee & Hc)];
    [|exists e; rewrite Ec, Ee; split; [reflexivity|exact Hc]].
  destruct (text_field_object_cases fields "pageToken") as [(t & Et)|(e & Ee & Hc)];
    [|exists e; rewrite Ec, El, Ee; split; [reflexivity|exact Hc]].
  exfalso. cbn [In] in Hk. destruct Hk as [<-|[<-|[<-|[]]]].
  - rewrite Hbad in Ec. discriminate Ec.
  - rewrite Hbad in El. discriminate El.
  - rewrite Hbad in Et. discriminate Et.
Qed.

Lemma non_text_entry_raises_witness :
  exists e,
    api_search (JsonBody (JObj [("category", JStr "cafe"); ("location", JInt 75)]))
               second_unknown []
    = (raise e, [])
    /\ exn_cls e = AttributeError.
Proof.
  apply (non_text_entry_raises
           [("category", JStr "cafe"); ("location", JInt 75)]
           "location" (JInt 75) second_unknown []).
  - simpl. right; left. reflexivity.
  - reflexivity.
  - reflexivity.
  - intros s H. discriminate H.
Defined.

(** *** White space *)

Lemma drop_spaces_nil_iff (l : list string) :
  drop_spaces l = [] <-> forallb is_space l = true.
Proof.
  induction l as [|ch l IH]; [split; reflexivity|].
  cbn [drop_spaces forallb]. destruct (is_space ch); cbn [andb].
  - exact IH.
  - split; intros H; discriminate H.
Qed.

Lemma drop_spaces_head (l : list string) :
  forall ch l', drop_spaces l = ch :: l' -> is_space ch = false.
Proof.
  induction l as [|x l IH]; intros ch l' H; [discriminate H|].
  cbn [drop_spaces] in H. destruct (is_space x) eqn:E.
  - now apply IH with l'.
  - injection H as <- _. exact E.
Qed.

Lemma drop_spaces_incl (l : list string) :
  forall ch, In ch (drop_spaces l) -> In ch l.
Proof.
  induction l as [|x l IH]; intros ch H; [exact H|].
  cbn [drop_spaces] in H. destruct (is_space x); [right; now apply IH|exact H].
Qed.

Lemma forallb_rev (A : Type) (p : A -> bool) (l : list A) :
  forallb p (rev l) = forallb p l.
Proof.
  induction l as [|x l IH]; [reflexivity|].
  cbn [rev forallb]. rewrite forallb_app, IH. cbn [forallb].
  rewrite andb_true_r. apply andb_comm.
Qed.

(** Nothing is left of a list of characters trimmed at both ends exactly
    when all of them are white space. *)
Lemma trimmed_nil_iff (l : list string) :
  rev (drop_spaces (rev (drop_spaces l))) = [] <-> forallb is_space l = true.
Proof.
  split.
  - intros H.
    assert (H1 : drop_spaces (rev (drop_spaces l)) = []).
    { destruct (drop_spaces (rev (drop_spaces l))) as [|x m]; [reflexivity|].
      cbn [rev] in H. destruct (rev m); discriminate H. }
    apply drop_spaces_nil_iff in H1. rewrite forallb_rev in H1.
    destruct (drop_spaces l) as [|ch l'] eqn:D; [now apply drop_spaces_nil_iff|].
    apply drop_spaces_head in D. cbn [forallb] in H1. rewrite D in H1.
    discriminate H1.
  - intros H. apply drop_spaces_nil_iff in H. rewrite H. reflexivity.
Qed.

Lemma split_chars_not_empty (s : string) :
  forall ch, In ch (split_chars s) -> ch <> "".
Proof.
  induction s as [|c s IH]; intros ch H; [destruct H|].
  cbn [split_chars] in H. destruct (split_chars s) as [|x rest].
  - destruct H as [<-|[]]. discriminate.
  - destruct (starts_with_continuation x).
    + destruct H as [<-|H]; [discriminate|]. apply IH. now right.
    + destruct H as [<-|H]; [discriminate|]. now apply IH.
Qed.

Lemma joined_empty (l : list string) :
  (forall ch, In ch l -> ch <> "") -> joined l = "" -> l = [].
Proof.
  destruct l as [|x l]; [reflexivity|]. intros Hne H. exfalso.
  assert (Hx : x <> "") by (apply Hne; now left).
  destruct x; [now apply Hx|discriminate H].
Qed.

Lemma strip_empty_iff (s : string) : strip s = "" <-> blank s = true.
Proof.
  unfold strip, blank. rewrite <- trimmed_nil_iff. split.
  - apply joined_empty. intros ch H.
    apply in_rev, drop_spaces_incl, in_rev, drop_spaces_incl in H.
    now apply split_chars_not_empty with s.
  - intros ->. reflexivity.
Qed.

(** X23.  An entry of the request that is a text reads as the empty text
    exactly when all its characters are white space for [str.isspace]
    (U+0009 to U+000D, U+001C to U+0020, U+0085, U+00A0, U+1680, U+2000
    to U+200A, U+2028, U+2029, U+202F, U+205F, U+3000), the empty text
    included. *)
Theorem text_field_blank_iff
    (fields : list (string * json)) (k s : string) :
  assoc k fields = Some (JStr s) ->
  text_field (JObj fields) k = ok "" <-> blank s = true.
Proof.
  intros Hk.
  assert (Ht : text_field (JObj fields) k = ok (strip s)).
  { unfold text_field. cbn [get rbind ok]. rewrite Hk. unfold por.
    rewrite truthy_str. destruct (String.eqb_spec s "") as [->|_]; reflexivity. }
  rewrite Ht. rewrite <- strip_empty_iff. split.
  - intros H. injection H as H. exact H.
  - intros ->. reflexivity.
Qed.

Lemma text_field_blank_iff_witness :
  text_field
    (JObj [("category",
            JStr (String TAB (" " ++ String "226" (String "128" (String "131" "")))))])
    "category"
  = ok "".
Proof.
  apply (proj2 (text_field_blank_iff
                  [("category",
                    JStr (String TAB
                                 (" " ++ String "226" (String "128" (String "131" "")))))]
                  "category"
                  (String TAB (" " ++ String "226" (String "128" (String "131" ""))))
                  eq_refl)).
  reflexivity.
Defined.

End FurtherProperties.
